(** * Dialogue resolution engine of [index.js]: embedding and verified properties

    The development follows the request handler [app.get('/chat')] and its
    helpers ([detectLanguage], [getRandomAnswer], [recognizeEntities],
    [personalizeAnswer]).  External capabilities (Fuse.js search, the
    tokenizer of [natural], the language detector, [axios], [Math.random])
    are fields of a record of externals that the handler receives.

    JavaScript numbers are modelled as exact rationals extended with NaN and
    the two infinities: comparison, truthiness, division and subtraction
    follow IEEE 754 except for rounding and the sign of zero. *)

From Stdlib Require Import QArith Qround ZArith String Ascii List Bool Lia.
From Stdlib Require Import Permutation Sorted DecimalString.
From Stdlib Require Import Floats.
From stdpp Require Import gmap strings.
Import ListNotations.

Local Open Scope string_scope.

Set Warnings "-inexact-float".

(** ** JavaScript numbers *)

(** Numbers as the handler compares them: NaN, the infinities and the finite
    values, these as exact rationals.  The comparisons, [||] and
    [parseFloat] of an attribute are exact on them.  A quotient or a
    difference is rounded by the machine; the re-ranking, which depends on
    them, is stated on binary64 numbers in [Rank64]. *)
Module Num.

Inductive num : Type :=
| NaN
| Inf (negative : bool)
| Fin (q : Q).

Definition Qltb (a b : Q) : bool := negb (Qle_bool b a).

Definition Qsign (q : Q) : comparison := (q ?= 0)%Q.

(** [a < b] of JavaScript: false as soon as one side is NaN. *)
Definition ltb (a b : num) : bool :=
  match a, b with
  | NaN, _ | _, NaN => false
  | Inf true, Inf true => false
  | Inf true, _ => true
  | _, Inf true => false
  | Inf false, _ => false
  | _, Inf false => true
  | Fin x, Fin y => Qltb x y
  end.

(** Truthiness of a number: NaN and zero are falsy. *)
Definition truthy (a : num) : bool :=
  match a with
  | NaN => false
  | Inf _ => true
  | Fin q => negb (Qeq_bool q 0)
  end.

(** [a || b] on numbers. *)
Definition or (a b : num) : num := if truthy a then a else b.

(** [a / b]. *)
Definition div (a b : num) : num :=
  match a, b with
  | NaN, _ | _, NaN => NaN
  | Inf _, Inf _ => NaN
  | Inf s, Fin y =>
      match Qsign y with Lt => Inf (negb s) | _ => Inf s end
  | Fin _, Inf _ => Fin 0
  | Fin x, Fin y =>
      match Qsign y with
      | Eq => match Qsign x with
              | Eq => NaN
              | Lt => Inf true
              | Gt => Inf false
              end
      | _ => Fin (x / y)
      end
  end.

(** [a - b]. *)
Definition sub (a b : num) : num :=
  match a, b with
  | NaN, _ | _, NaN => NaN
  | Inf s, Inf t => if Bool.eqb s t then NaN else Inf s
  | Inf s, Fin _ => Inf s
  | Fin _, Inf t => Inf (negb t)
  | Fin x, Fin y => Fin (x - y)
  end.

(** [parseFloat] of an optional numeric attribute: the record fields below
    hold the number that [parseFloat] reads from the attribute text (NaN for
    a text that is no number), and [None] for an attribute that is absent or
    empty ([parseFloat] of [undefined] or of the empty string is NaN). *)
Definition parseFloat (a : option num) : num :=
  match a with
  | Some n => n
  | None => NaN
  end.

(** [a === b] on numbers, up to the representation of a rational: NaN equals
    nothing. *)
Definition eqv (a b : num) : Prop :=
  match a, b with
  | Inf s, Inf t => s = t
  | Fin x, Fin y => (x == y)%Q
  | _, _ => False
  end.

End Num.

(** ** Strings *)

Module Str.

(** [toLowerCase] on the ASCII letters; other bytes are left as they are.
    Entity recognition, which compares lower-cased texts of any script, is
    stated in [Recognize] for any lower-casing. *)
Definition lower_ascii (c : ascii) : ascii :=
  let n := nat_of_ascii c in
  if (65 <=? n)%nat && (n <=? 90)%nat then ascii_of_nat (n + 32) else c.

Fixpoint toLowerCase (s : string) : string :=
  match s with
  | EmptyString => EmptyString
  | String c s' => String (lower_ascii c) (toLowerCase s')
  end.

Fixpoint drop (n : nat) (s : string) : string :=
  match n, s with
  | O, _ => s
  | S n', String _ s' => drop n' s'
  | S _, EmptyString => EmptyString
  end.

(** The replacement text of [String.prototype.replace] for a string pattern
    (GetSubstitution without captures): [$$] is a dollar sign, [$&] the
    matched text, [$`] the text before the match, [$'] the text after it;
    any other character, a lone dollar sign included, stands for itself. *)
Fixpoint getSubstitution (matched before after replacement : string) : string :=
  match replacement with
  | EmptyString => EmptyString
  | String c r =>
      if Ascii.eqb c "$" then
        match r with
        | String d r' =>
            if Ascii.eqb d "$" then
              String "$" (getSubstitution matched before after r')
            else if Ascii.eqb d "&" then
              matched ++ getSubstitution matched before after r'
            else if Ascii.eqb d "`" then
              before ++ getSubstitution matched before after r'
            else if Ascii.eqb d "'" then
              after ++ getSubstitution matched before after r'
            else String c (getSubstitution matched before after r)
        | EmptyString => String c EmptyString
        end
      else String c (getSubstitution matched before after r)
  end.

(** [s.replace(pattern, replacement)] with a string pattern: the first
    occurrence only, scanning from the left; [before] is the text already
    passed. *)
Fixpoint replace_from (before pattern replacement s : string) : string :=
  if String.prefix pattern s then
    let after := drop (String.length pattern) s in
    before ++ getSubstitution pattern before after replacement ++ after
  else
    match s with
    | EmptyString => before
    | String c s' =>
        replace_from (before ++ String c EmptyString) pattern replacement s'
    end.

Definition replace (pattern replacement s : string) : string :=
  replace_from EmptyString pattern replacement s.

Fixpoint take (n : nat) (s : string) : string :=
  match n, s with
  | O, _ => EmptyString
  | S n', String c s' => String c (take n' s')
  | S _, EmptyString => EmptyString
  end.

(** [s.indexOf(pattern)]: where [pattern] first occurs in [s], if it does. *)
Fixpoint indexOf (pattern s : string) : option nat :=
  if String.prefix pattern s then Some O
  else
    match s with
    | EmptyString => None
    | String _ s' => option_map S (indexOf pattern s')
    end.

Fixpoint has_char (c : ascii) (s : string) : bool :=
  match s with
  | EmptyString => false
  | String d s' => Ascii.eqb c d || has_char c s'
  end.

End Str.

(** ** Knowledge base, sessions, requests and responses *)

Module KB.

Import Num.

(** A value that [cleanXmlObject] leaves either as one element or as an
    array ([Array.isArray] tells them apart). *)
Inductive OneOrMany (A : Type) : Type :=
| One (x : A)
| Many (l : list A).
Arguments One {A} x.
Arguments Many {A} l.

Definition to_list {A : Type} (v : OneOrMany A) : list A :=
  match v with
  | One x => [x]
  | Many l => l
  end.

Record ApiFallback : Type := { url : option string }.

Record Settings : Type := {
  defaultThreshold : option num;
  autoDetectLanguage : option string;
  tokenizer : option string;
  apiFallback : option ApiFallback
}.

Record Intent : Type := {
  intent_name : string;
  keywords : list string
}.

Record Entity : Type := {
  entity_name : string;
  values_v : OneOrMany string
}.

Record Item : Type := {
  lang : string;
  intent : string;
  questions : list string;
  answers_a : OneOrMany string;
  relevanceWeight : option num;
  threshold : option num;
  nextContextId : option string
}.

Record Context : Type := {
  context_id : string;
  context_item : option (OneOrMany Item)
}.

Record Config : Type := {
  settings : Settings;
  intents : list Intent;
  entities : list Entity;
  qaItems : list Item;
  contexts : list Context
}.

(** One result of a Fuse search ([includeScore: true]). *)
Record SearchResult (A : Type) : Type := {
  item : A;
  score : num
}.
Arguments item {A} _.
Arguments score {A} _.

(** JavaScript values that reach a session or a response body.  A recognised
    entity object keeps its keys in insertion order. *)
Inductive value : Type :=
| VUndefined
| VNull
| VStr (s : string)
| VNum (n : num)
| VObj (fields : list (string * string)).

(** Truthiness, as [||] and [if] test it. *)
Definition truthy (v : value) : bool :=
  match v with
  | VUndefined | VNull => false
  | VStr s => negb (String.eqb s "")
  | VNum n => Num.truthy n
  | VObj _ => true
  end.

Definition str_truthy (s : option string) : bool :=
  match s with
  | Some s => negb (String.eqb s "")
  | None => false
  end.

(** [s || d] on an optional string. *)
Definition str_or (s : option string) (d : string) : string :=
  match s with
  | Some s => if String.eqb s "" then d else s
  | None => d
  end.

Record HistoryEntry : Type := {
  user : string;
  bot : value
}.

Record Session : Type := {
  history : list HistoryEntry;
  context : option string
}.

Record Request : Type := {
  query_q : option string;
  query_sessionId : option string
}.

(** [res.status(code).json(body)]; [res.json] alone is status 200. *)
Record Response : Type := {
  status : nat;
  body : list (string * value)
}.

(** What [axios.get] gives back: the promise rejects (timeout, network
    error, non-success status), or it resolves with a body that is null or
    undefined (reading [.answer] from it throws), or with any other body,
    whose [answer] property is [VUndefined] when it has none. *)
Inductive ApiOutcome : Type :=
| ApiRejected
| ApiNoBody
| ApiBody (answer : value).

(** The external capabilities the handler calls. *)
Record Externals : Type := {
  (** [new LanguageDetect().detect(text, 1)]: language names, best first *)
  languageDetect : string -> list string;
  (** [new natural[name]()]: the tokenizer of that name, [None] when the
      construction throws *)
  natural : string -> option (string -> list string);
  (** [new Fuse(intents, {threshold, ...}).search(text)] *)
  fuseIntents : num -> list Intent -> string -> list (SearchResult Intent);
  (** [new Fuse(items, {threshold, ...}).search(text)] *)
  fuseItems : num -> list Item -> string -> list (SearchResult Item);
  (** [Math.random()] *)
  mathRandom : Q;
  (** [axios.get(url, {params: {q}})] *)
  axiosGet : string -> string -> ApiOutcome
}.

End KB.

(** ** The program *)

Module Bot.

Import Num Str KB.

Definition opt_string_eqb (a : option string) (b : string) : bool :=
  match a with
  | Some s => String.eqb s b
  | None => false
  end.

(** [detectLanguage(text)] *)
Definition detectLanguage (ext : Externals) (chatbotConfig : Config)
    (text : string) : string :=
  if negb (opt_string_eqb (autoDetectLanguage (settings chatbotConfig)) "true")
  then "id"
  else
    match languageDetect ext text with
    | name :: _ =>
        if String.eqb (toLowerCase name) "indonesian" then "id"
        else if String.eqb (toLowerCase name) "english" then "en"
        else "id"
    | [] => "id"
    end.

(** [getRandomAnswer(item)]; [None] when reading the chosen answer throws
    (an empty array of answers).  The index is the floor of the exact
    product; the properties of the handler only use that it lies within the
    array. *)
Definition getRandomAnswer (ext : Externals) (it : Item) : option string :=
  match answers_a it with
  | Many answers =>
      let randomIndex :=
        Qfloor (mathRandom ext * inject_Z (Z.of_nat (List.length answers))) in
      if (randomIndex <? 0)%Z then None
      else nth_error answers (Z.to_nat randomIndex)
  | One answers => Some answers
  end.

(** [obj[key] = v] on an object whose keys are read back in insertion
    order: an existing key keeps its place. *)
Fixpoint set_prop (key v : string) (obj : list (string * string))
  : list (string * string) :=
  match obj with
  | [] => [(key, v)]
  | (k, w) :: rest =>
      if String.eqb k key then (k, v) :: rest
      else (k, w) :: set_prop key v rest
  end.

Fixpoint get_prop (key : string) (obj : list (string * string))
  : option string :=
  match obj with
  | [] => None
  | (k, w) :: rest => if String.eqb k key then Some w else get_prop key rest
  end.

(** [entityValues.includes(token.toLowerCase())] *)
Definition entity_matches (entity : Entity) (token : string) : bool :=
  let entityValues :=
    match values_v entity with
    | Many v => map toLowerCase v
    | One v => [toLowerCase v]
    end in
  existsb (String.eqb (toLowerCase token)) entityValues.

(** [recognizeEntities(tokens)]: entities in the outer loop, tokens in the
    inner one. *)
Definition recognizeEntities (chatbotConfig : Config) (tokens : list string)
  : list (string * string) :=
  fold_left
    (fun foundEntities entity =>
       fold_left
         (fun foundEntities token =>
            if entity_matches entity token
            then set_prop (entity_name entity) token foundEntities
            else foundEntities)
         tokens foundEntities)
    (entities chatbotConfig) [].

Definition placeholder (key : string) : string := "{" ++ key ++ "}".

(** [personalizeAnswer(answer, entities)] *)
Definition personalizeAnswer (answer : string) (entities : list (string * string))
  : string :=
  fold_left
    (fun personalized kv => replace (placeholder (fst kv)) (snd kv) personalized)
    entities answer.

(** Step 4 of the handler, the contextual search. *)
Definition contextSearch (ext : Externals) (chatbotConfig : Config)
    (session : Session) (userInput : string) : option (SearchResult Item) :=
  if str_truthy (context session) then
    match List.find (fun c => opt_string_eqb (context session) (context_id c))
                    (contexts chatbotConfig) with
    | Some contextData =>
        match context_item contextData with
        | Some items =>
            match fuseItems ext (Fin 0.5) (to_list items) userInput with
            | r :: _ => Some r
            | [] => None
            end
        | None => None
        end
    | None => None
    end
  else None.

(** The threshold of the Fuse indices built by [loadAndPrepareData]. *)
Definition indexThreshold (chatbotConfig : Config) : num :=
  Num.or (parseFloat (defaultThreshold (settings chatbotConfig))) (Fin 0.4).

Definition allQaItems (chatbotConfig : Config) : list Item :=
  qaItems chatbotConfig ++
  flat_map (fun c => match context_item c with
                     | Some items => to_list items
                     | None => []
                     end)
           (contexts chatbotConfig).

(** [fuseInstances.qa[lang]]: an index exists for the languages of the items. *)
Definition qaFuse (ext : Externals) (chatbotConfig : Config) (lang_ : string)
  : option (string -> list (SearchResult Item)) :=
  let langQaItems :=
    List.filter (fun it => String.eqb (lang it) lang_) (allQaItems chatbotConfig) in
  match langQaItems with
  | [] => None
  | _ :: _ => Some (fuseItems ext (indexThreshold chatbotConfig) langQaItems)
  end.

Definition weightOf (r : SearchResult Item) : num :=
  match relevanceWeight (item r) with
  | Some w => w
  | None => Fin 1
  end.

(** The ranking key, [score / weight]. *)
Definition rankKey (r : SearchResult Item) : num := div (score r) (weightOf r).

(** The comparator handed to [sort]. *)
Definition compareFn (a b : SearchResult Item) : num :=
  sub (rankKey a) (rankKey b).

(** [Array.prototype.sort(compareFn)]: stable; an element moves behind
    another only when the comparator is positive (NaN counts as zero). *)
Fixpoint insert_by {A : Type} (cmp : A -> A -> num) (x : A) (l : list A) : list A :=
  match l with
  | [] => [x]
  | y :: l' =>
      if ltb (Fin 0) (cmp x y) then y :: insert_by cmp x l' else x :: l
  end.

Fixpoint sort {A : Type} (cmp : A -> A -> num) (l : list A) : list A :=
  match l with
  | [] => []
  | x :: l' => insert_by cmp x (sort cmp l')
  end.

Definition detectIntent (ext : Externals) (chatbotConfig : Config)
    (userInput : string) : string :=
  match fuseIntents ext (indexThreshold chatbotConfig) (intents chatbotConfig)
                    userInput with
  | r :: _ => intent_name (item r)
  | [] => "unknown"
  end.

(** Filtering by the detected intent and re-ranking (step 5b). *)
Definition rerank (detectedIntent : string) (searchResults : list (SearchResult Item))
  : option (SearchResult Item) :=
  let relevantResults :=
    List.filter (fun r => String.eqb (intent (item r)) detectedIntent) searchResults in
  match relevantResults with
  | _ :: _ => List.head (sort compareFn relevantResults)
  | [] => List.head searchResults
  end.

(** Step 5 of the handler, the general search. *)
Definition generalSearch (ext : Externals) (chatbotConfig : Config)
    (lang_ userInput : string) : option (SearchResult Item) :=
  let detectedIntent := detectIntent ext chatbotConfig userInput in
  match qaFuse ext chatbotConfig lang_ with
  | Some search => rerank detectedIntent (search userInput)
  | None => None
  end.

Definition findBestMatch (ext : Externals) (chatbotConfig : Config)
    (session : Session) (lang_ userInput : string) : option (SearchResult Item) :=
  match contextSearch ext chatbotConfig session userInput with
  | Some r => Some r
  | None => generalSearch ext chatbotConfig lang_ userInput
  end.

(** [parseFloat(item.threshold) || parseFloat(settings.defaultThreshold)] *)
Definition effectiveThreshold (chatbotConfig : Config) (r : SearchResult Item) : num :=
  Num.or (parseFloat (threshold (item r)))
         (parseFloat (defaultThreshold (settings chatbotConfig))).

(** The test of step 6. *)
Definition accepted (chatbotConfig : Config) (bestMatch : option (SearchResult Item))
  : bool :=
  match bestMatch with
  | Some r => ltb (score r) (effectiveThreshold chatbotConfig r)
  | None => false
  end.

(** A pipeline run either throws (caught by the outer [catch]) or ends,
    with or without a response, leaving the session as given. *)
Definition Run : Type := option (option Response * Session).

Definition json (b : list (string * value)) : Response :=
  {| status := 200; body := b |}.

Definition context_value (c : option string) : value :=
  match c with
  | Some s => VStr s
  | None => VNull
  end.

(** [item.nextContextId || null] *)
Definition nextContext (it : Item) : option string :=
  if str_truthy (nextContextId it) then nextContextId it else None.

Definition push (session : Session) (userInput : string) (answer : value)
    (newContext : option string) : Session :=
  {| history := history session ++ [{| user := userInput; bot := answer |}];
     context := newContext |}.

(** The accepting branch of step 6. *)
Definition answerLocally (ext : Externals) (session : Session)
    (lang_ userInput : string) (foundEntities : list (string * string))
    (bestMatch : SearchResult Item) : Run :=
  match getRandomAnswer ext (item bestMatch) with
  | None => None
  | Some answer =>
      let answer := personalizeAnswer answer foundEntities in
      let newContext := nextContext (item bestMatch) in
      Some (Some (json [("answer", VStr answer);
                        ("intent", VStr (intent (item bestMatch)));
                        ("score", VNum (score bestMatch));
                        ("source", VStr "local_qa");
                        ("context", context_value newContext);
                        ("language", VStr lang_);
                        ("entities", VObj foundEntities)]),
            push session userInput (VStr answer) newContext)
  end.

Definition apiDefaultAnswer : string := "Maaf, API eksternal juga bingung.".

(** Step 7: the external call, inside its own [try]; [None] when nothing
    was configured or the call failed. *)
Definition apiFallbackStep (ext : Externals) (chatbotConfig : Config)
    (session : Session) (lang_ userInput : string)
  : option (Response * Session) :=
  match apiFallback (settings chatbotConfig) with
  | Some fallbackApi =>
      match url fallbackApi with
      | Some u =>
          if String.eqb u "" then None
          else
            match axiosGet ext u userInput with
            | ApiBody answer =>
                let apiAnswer :=
                  if truthy answer then answer else VStr apiDefaultAnswer in
                Some (json [("answer", apiAnswer);
                            ("intent", VStr "api_fallback");
                            ("source", VStr "api_fallback");
                            ("context", VNull);
                            ("language", VStr lang_)],
                      push session userInput apiAnswer None)
            | ApiRejected | ApiNoBody => None
            end
      | None => None
      end
  | None => None
  end.

(** Step 8: the static fallback item of the knowledge base. *)
Definition staticFallbackStep (ext : Externals) (chatbotConfig : Config)
    (session : Session) (lang_ userInput : string) : Run :=
  match List.find (fun it => String.eqb (intent it) "fallback"
                             && String.eqb (lang it) lang_)
                  (qaItems chatbotConfig) with
  | Some fallbackItem =>
      match getRandomAnswer ext fallbackItem with
      | None => None
      | Some fallbackAnswer =>
          Some (Some (json [("answer", VStr fallbackAnswer);
                            ("intent", VStr "fallback");
                            ("source", VStr "local_fallback");
                            ("context", VNull);
                            ("language", VStr lang_)]),
                push session userInput (VStr fallbackAnswer) None)
      end
  | None => Some (None, session)
  end.

(** The rejecting branch of step 6: steps 7 and 8. *)
Definition fallbackChain (ext : Externals) (chatbotConfig : Config)
    (session : Session) (lang_ userInput : string) : Run :=
  match apiFallbackStep ext chatbotConfig session lang_ userInput with
  | Some (resp, session') => Some (Some resp, session')
  | None => staticFallbackStep ext chatbotConfig session lang_ userInput
  end.

(** The body of the outer [try]. *)
Definition pipeline (ext : Externals) (chatbotConfig : Config)
    (session : Session) (userInput : string) : Run :=
  let lang_ := detectLanguage ext chatbotConfig userInput in
  let tokenizerType := str_or (tokenizer (settings chatbotConfig)) "WordTokenizer" in
  match natural ext tokenizerType with
  | None => None
  | Some tokenize =>
      let tokens := tokenize (toLowerCase userInput) in
      let foundEntities := recognizeEntities chatbotConfig tokens in
      let bestMatch := findBestMatch ext chatbotConfig session lang_ userInput in
      match bestMatch with
      | Some r =>
          if accepted chatbotConfig bestMatch
          then answerLocally ext session lang_ userInput foundEntities r
          else fallbackChain ext chatbotConfig session lang_ userInput
      | None => fallbackChain ext chatbotConfig session lang_ userInput
      end
  end.

Definition badRequest : Response :=
  {| status := 400;
     body := [("error",
               VStr "Parameter 'q' (pertanyaan) dan 'sessionId' harus ada.")] |}.

Definition serverError : Response :=
  {| status := 500;
     body := [("error",
               VStr "Waduh, ada yang error di server nih. Coba lagi nanti ya.")] |}.

Definition newSession : Session := {| history := []; context := None |}.

(** [app.get('/chat', ...)]: the response sent, if any, and the conversation
    memory afterwards.  The map holds the sessions, the own properties of
    [conversationMemory]; what a lookup finds in [Object.prototype] is set
    apart in [Ids]. *)
Definition chat (ext : Externals) (chatbotConfig : Config)
    (conversationMemory : gmap string Session) (req : Request)
  : option Response * gmap string Session :=
  match query_q req, query_sessionId req with
  | Some userInput, Some sessionId =>
      if String.eqb userInput "" || String.eqb sessionId ""
      then (Some badRequest, conversationMemory)
      else
        let memory :=
          match conversationMemory !! sessionId with
          | Some _ => conversationMemory
          | None => <[sessionId := newSession]> conversationMemory
          end in
        let session := default newSession (memory !! sessionId) in
        match pipeline ext chatbotConfig session userInput with
        | Some (resp, session') => (resp, <[sessionId := session']> memory)
        | None => (Some serverError, memory)
        end
  | _, _ => (Some badRequest, conversationMemory)
  end.

(** The session the handler works on: the stored one, or a fresh one. *)
Definition sessionOf (conversationMemory : gmap string Session)
    (sessionId : string) : Session :=
  default newSession (conversationMemory !! sessionId).

(** A request that carries both parameters. *)
Definition validRequest (req : Request) (userInput sessionId : string) : Prop :=
  query_q req = Some userInput /\ query_sessionId req = Some sessionId /\
  userInput <> "" /\ sessionId <> "".

(** The tokenizer the settings select, when it can be constructed. *)
Definition tokenizerOf (ext : Externals) (chatbotConfig : Config)
  : option (string -> list string) :=
  natural ext (str_or (tokenizer (settings chatbotConfig)) "WordTokenizer").

(** The effective threshold as the specification words it: the override of
    the item if present, else the global default. *)
Definition specThreshold (chatbotConfig : Config) (r : SearchResult Item) : num :=
  match threshold (item r) with
  | Some t => t
  | None => parseFloat (defaultThreshold (settings chatbotConfig))
  end.


(** Reading a field of a response body. *)
Fixpoint field (key : string) (b : list (string * value)) : option value :=
  match b with
  | [] => None
  | (k, v) :: rest => if String.eqb k key then Some v else field key rest
  end.

End Bot.

(** ** A small knowledge base and stand-ins for the external capabilities *)

Module Sample.

Import Num Str KB Bot.

(** Splitting on spaces, for the tokenizer. *)
Fixpoint words_from (current : string) (s : string) : list string :=
  match s with
  | EmptyString => if String.eqb current "" then [] else [current]
  | String c s' =>
      if Ascii.eqb c " "
      then (if String.eqb current "" then [] else [current]) ++ words_from "" s'
      else words_from (current ++ String c EmptyString) s'
  end.

Definition words (s : string) : list string := words_from "" s.

(** A stand-in for Fuse: an object whose question equals the text scores 0,
    one whose question starts the text scores 0.45; results above the
    threshold are dropped, the rest come best first. *)
Definition toyScore (qs : list string) (text : string) : option num :=
  if existsb (String.eqb text) qs then Some (Fin 0)
  else if existsb (fun q => String.prefix q text) qs then Some (Fin 0.45)
  else None.

Definition toySearch {A : Type} (keys : A -> list string) (thr : num)
    (objs : list A) (text : string) : list (SearchResult A) :=
  let scored :=
    flat_map (fun o => match toyScore (keys o) text with
                       | Some s => if ltb thr s then [] else [{| item := o; score := s |}]
                       | None => []
                       end) objs in
  List.filter (fun r => negb (ltb (Fin 0) (score r))) scored ++
  List.filter (fun r => ltb (Fin 0) (score r)) scored.

Definition weatherItem : Item :=
  {| lang := "id"; intent := "weather"; questions := ["cuaca"];
     answers_a := Many ["Cuaca di {city} cerah"];
     relevanceWeight := None; threshold := None;
     nextContextId := Some "followup" |}.

Definition fallbackItem : Item :=
  {| lang := "id"; intent := "fallback"; questions := [];
     answers_a := One "Maaf, saya tidak mengerti.";
     relevanceWeight := None; threshold := None; nextContextId := None |}.

Definition followupItem : Item :=
  {| lang := "id"; intent := "weather_detail"; questions := ["besok"];
     answers_a := One "Besok {city} hujan";
     relevanceWeight := None; threshold := None;
     nextContextId := Some "more" |}.

Definition sampleSettings (api : option ApiFallback) : Settings :=
  {| defaultThreshold := Some (Fin 0.4);
     autoDetectLanguage := Some "false";
     tokenizer := None;
     apiFallback := api |}.

Definition sampleConfig (api : option ApiFallback) (items : list Item) : Config :=
  {| settings := sampleSettings api;
     intents := [{| intent_name := "weather"; keywords := ["cuaca"] |}];
     entities := [{| entity_name := "city"; values_v := Many ["Jakarta"; "Bandung"] |}];
     qaItems := items;
     contexts := [{| context_id := "followup";
                     context_item := Some (One followupItem) |}] |}.

Definition sampleExternals (api : ApiOutcome) : Externals :=
  {| languageDetect := fun _ => [];
     natural := fun name =>
       if String.eqb name "WordTokenizer" then Some words else None;
     fuseIntents := toySearch keywords;
     fuseItems := toySearch questions;
     mathRandom := 0.5;
     axiosGet := fun _ _ => api |}.

Definition someApi : option ApiFallback :=
  Some {| url := Some "http://fallback.example/api" |}.

Definition request (q sessionId : string) : Request :=
  {| query_q := Some q; query_sessionId := Some sessionId |}.

(** A session left in the context [followup] by an earlier turn. *)
Definition inFollowup : Session :=
  {| history := [{| user := "cuaca"; bot := VStr "Cuaca di {city} cerah" |}];
     context := Some "followup" |}.

(** An item whose threshold attribute is [0]. *)
Definition exactItem : Item :=
  {| lang := "id"; intent := "status"; questions := ["status"];
     answers_a := One "Semua normal";
     relevanceWeight := None; threshold := Some (Fin 0);
     nextContextId := None |}.

(** Two candidates of one intent: (score 0.30, weight 1.0) and
    (score 0.35, weight 2.0). *)
Definition candidate (s : Q) (w : option num) : SearchResult Item :=
  {| item := {| lang := "id"; intent := "weather"; questions := ["cuaca"];
                answers_a := One "Cerah"; relevanceWeight := w;
                threshold := None; nextContextId := None |};
     score := Fin s |}.

End Sample.

(** ** Further notions used to state properties of the handler *)

Module Probe.

Import Num Str KB Bot.

(** The externals with another HTTP client. *)
Definition withAxiosGet (ext : Externals)
    (g : string -> string -> ApiOutcome) : Externals :=
  {| languageDetect := languageDetect ext;
     natural := natural ext;
     fuseIntents := fuseIntents ext;
     fuseItems := fuseItems ext;
     mathRandom := mathRandom ext;
     axiosGet := g |}.

(** The session with its active context dropped. *)
Definition withoutContext (session : Session) : Session :=
  {| history := history session; context := None |}.

(** The source tags the handler writes. *)
Definition sourceTags : list string := ["local_qa"; "api_fallback"; "local_fallback"].

(** [settings.apiFallback && settings.apiFallback.url] *)
Definition apiConfigured (chatbotConfig : Config) : bool :=
  match apiFallback (settings chatbotConfig) with
  | Some fallbackApi => str_truthy (url fallbackApi)
  | None => false
  end.

(** A response that answers the utterance, and the session it leaves: status
    200, one of the three source tags, the answer recorded as the one new
    history entry, the response's context equal to the stored one, and the
    context cleared by the two fallback tiers. *)
Definition answered (ext : Externals) (chatbotConfig : Config)
    (session : Session) (userInput : string)
    (resp : Response) (session' : Session) : Prop :=
  exists answer source,
    status resp = 200 /\
    field "answer" (body resp) = Some answer /\
    field "source" (body resp) = Some (VStr source) /\
    In source sourceTags /\
    field "context" (body resp) = Some (context_value (context session')) /\
    field "language" (body resp) =
    Some (VStr (detectLanguage ext chatbotConfig userInput)) /\
    history session' =
    (history session ++ [{| user := userInput; bot := answer |}])%list /\
    (source <> "local_qa" -> context session' = None).

End Probe.

(** ** The loader's clean-up of parsed XML *)

Module Xml.

(** The values [xml2js] hands over and [cleanXmlObject] builds: text,
    arrays, and objects whose fields are listed in enumeration order, each
    key once; [JUndef] is a property that is not there. *)
#[warnings="-register-all"]
Inductive jv : Type :=
| JUndef
| JStr (s : string)
| JArr (items : list jv)
| JObj (fields : list (string * jv)).

Definition jtruthy (v : jv) : bool :=
  match v with
  | JUndef => false
  | JStr s => negb (String.eqb s "")
  | JArr _ | JObj _ => true
  end.

(** [o[key]] *)
Fixpoint getp (key : string) (fields : list (string * jv)) : jv :=
  match fields with
  | [] => JUndef
  | (k, v) :: rest => if String.eqb k key then v else getp key rest
  end.

(** [o[key] = v]: an existing key keeps its place. *)
Fixpoint setp (key : string) (v : jv) (fields : list (string * jv))
  : list (string * jv) :=
  match fields with
  | [] => [(key, v)]
  | (k, w) :: rest =>
      if String.eqb k key then (k, v) :: rest else (k, w) :: setp key v rest
  end.

(** The key of an array index. *)
Definition indexKey (n : nat) : string :=
  NilEmpty.string_of_uint (Nat.to_uint n).

Fixpoint indexedFrom (n : nat) (l : list jv) : list (string * jv) :=
  match l with
  | [] => []
  | x :: l' => (indexKey n, x) :: indexedFrom (S n) l'
  end.

(** The enumerable properties of an array. *)
Definition indexed (l : list jv) : list (string * jv) := indexedFrom 0 l.

Fixpoint chars (s : string) : list jv :=
  match s with
  | EmptyString => []
  | String c s' => JStr (String c EmptyString) :: chars s'
  end.

(** The properties [for (const k in v)] and [{...v}] go through. *)
Definition spread (v : jv) : list (string * jv) :=
  match v with
  | JObj f => f
  | JArr l => indexed l
  | JStr s => indexed (chars s)
  | JUndef => []
  end.

(** [cleanXmlObject(obj)].  [cleanProp] is the body of the loop for one
    property: a one-element array holding a non-empty object (or array)
    takes the first branch, any other array the second, with [cleanItem] as
    the callback of [map], and everything else is copied. *)
Fixpoint cleanXmlObject (obj : jv) : jv :=
  let cleanItem := fun item : jv =>
    match item with
    | JObj f =>
        if jtruthy (getp "_" f)
        then JObj (setp "value" (getp "_" f) (spread (getp "$" f)))
        else cleanXmlObject item
    | _ => item
    end in
  let cleanProp := fun v : jv =>
    match v with
    | JArr [x] =>
        match x with
        | JObj ((_ :: _) as f) =>
            if jtruthy (getp "_" f) then getp "_" f
            else if jtruthy (getp "$" f)
                 then JObj (setp "value" (getp "_" f) (spread (getp "$" f)))
                 else cleanXmlObject x
        | JArr (_ :: _) => cleanXmlObject x
        | _ => JArr [cleanItem x]
        end
    | JArr l => JArr (map cleanItem l)
    | _ => v
    end in
  match obj with
  | JObj f => JObj (map (fun kv => match kv with (k, v) => (k, cleanProp v) end) f)
  | JArr l => JObj (indexed (map cleanProp l))
  | JStr s => JObj (indexed (chars s))
  | JUndef => JObj []
  end.

(** The two local steps of [cleanXmlObject], by themselves. *)
Definition cleanItem (item : jv) : jv :=
  match item with
  | JObj f =>
      if jtruthy (getp "_" f)
      then JObj (setp "value" (getp "_" f) (spread (getp "$" f)))
      else cleanXmlObject item
  | _ => item
  end.

Definition cleanProp (v : jv) : jv :=
  match v with
  | JArr [x] =>
      match x with
      | JObj ((_ :: _) as f) =>
          if jtruthy (getp "_" f) then getp "_" f
          else if jtruthy (getp "$" f)
               then JObj (setp "value" (getp "_" f) (spread (getp "$" f)))
               else cleanXmlObject x
      | JArr (_ :: _) => cleanXmlObject x
      | _ => JArr [cleanItem x]
      end
  | JArr l => JArr (map cleanItem l)
  | _ => v
  end.

(** Whether a property named [__proto__] occurs somewhere in the value.  The
    assignment [newObj[k] = ...] under that name sets the prototype of
    [newObj] and adds no property, so the result of [cleanXmlObject] is
    described for the values without one. *)
Fixpoint hasProtoKey (v : jv) : bool :=
  match v with
  | JObj f =>
      existsb (fun kv => match kv with
                         | (k, w) => String.eqb k "__proto__" || hasProtoKey w
                         end) f
  | JArr l => existsb hasProtoKey l
  | JStr _ | JUndef => false
  end.

(** The fields of an object. *)
Definition fieldsOf (v : jv) : list (string * jv) :=
  match v with
  | JObj f => f
  | _ => []
  end.

(** One element as [loadAndPrepareData] takes it in:
    [cleanXmlObject({name: [element]})[name]]. *)
Definition loadElement (name : string) (element : jv) : jv :=
  getp name (fieldsOf (cleanXmlObject (JObj [(name, JArr [element])]))).

End Xml.

(** ** Session ids and the prototype of [conversationMemory] *)

Module Ids.

(** [conversationMemory] is a plain object: a lookup finds its own
    properties, the sessions, and behind them the properties of
    [Object.prototype].  These are the names that can be found there: the
    built-in ones, and [context], the one property the handler itself can
    add (line 264 assigns [session.context], and under the id [__proto__]
    the session is [Object.prototype]).  Under such an id no session is ever
    created; the map of sessions stands for the own properties, and the
    properties of the handler that speak of a stored session are for the
    other ids. *)
Definition inheritedNames : list string :=
  ["__proto__"; "constructor"; "hasOwnProperty"; "isPrototypeOf";
   "propertyIsEnumerable"; "toLocaleString"; "toString"; "valueOf";
   "__defineGetter__"; "__defineSetter__"; "__lookupGetter__";
   "__lookupSetter__"; "context"].

Definition inheritedName (name : string) : bool :=
  existsb (String.eqb name) inheritedNames.

End Ids.

(** ** Entity recognition over any lower-casing *)

Module Recognize.

Import KB Bot.

Section WithLower.

(** [String.prototype.toLowerCase], whatever it does to the letters. *)
Variable lower : string -> string.

(** [entityValues.includes(token.toLowerCase())] *)
Definition entityMatches (entity : Entity) (token : string) : bool :=
  let entityValues :=
    match values_v entity with
    | Many v => map lower v
    | One v => [lower v]
    end in
  existsb (String.eqb (lower token)) entityValues.

(** The inner loop of [recognizeEntities], for one entity. *)
Definition scanTokens (entity : Entity) (tokens : list string)
    (foundEntities : list (string * string)) : list (string * string) :=
  fold_left
    (fun foundEntities token =>
       if entityMatches entity token
       then set_prop (entity_name entity) token foundEntities
       else foundEntities)
    tokens foundEntities.

(** [recognizeEntities(tokens)] *)
Definition recognizeEntities (chatbotConfig : Config) (tokens : list string)
  : list (string * string) :=
  fold_left
    (fun foundEntities entity =>
       fold_left
         (fun foundEntities token =>
            if entityMatches entity token
            then set_prop (entity_name entity) token foundEntities
            else foundEntities)
         tokens foundEntities)
    (entities chatbotConfig) [].


End WithLower.

End Recognize.

(** ** Re-ranking on binary64 numbers *)

Module Rank64.

Import KB.

(** An item and a search result as in [KB], their numbers being the
    binary64 values of JavaScript. *)
Record Item : Type := {
  lang : string;
  intent : string;
  questions : list string;
  answers_a : OneOrMany string;
  relevanceWeight : option float;
  threshold : option float;
  nextContextId : option string
}.

Record SearchResult : Type := {
  item : Item;
  score : float
}.

(** [parseFloat(r.item.relevanceWeight || 1.0)]: 1 for an absent or empty
    attribute, otherwise what [parseFloat] reads, NaN included. *)
Definition weightOf (r : SearchResult) : float :=
  match relevanceWeight (item r) with
  | Some w => w
  | None => 1%float
  end.

(** The ranking key, [score / weight]. *)
Definition rankKey (r : SearchResult) : float :=
  PrimFloat.div (score r) (weightOf r).

(** The comparator handed to [sort]. *)
Definition compareFn (a b : SearchResult) : float :=
  PrimFloat.sub (rankKey a) (rankKey b).

(** The comparator puts [a] behind [b]: its value is positive. *)
Definition behind {A : Type} (cmp : A -> A -> float) (a b : A) : bool :=
  PrimFloat.ltb 0%float (cmp a b).

(** A comparator that [sort] can rely on for the elements of [l]: never
    positive both ways, and not being behind is transitive.  The comparator
    of the re-ranking is one whenever the keys are numbers. *)
Definition consistentOn {A : Type} (cmp : A -> A -> float) (l : list A) : Prop :=
  (forall a b, In a l -> In b l -> behind cmp a b = true -> behind cmp b a = false) /\
  (forall a b c, In a l -> In b l -> In c l ->
                 behind cmp a b = false -> behind cmp b c = false ->
                 behind cmp a c = false).

(** [Array.prototype.sort(cmp)] for a consistent comparator: the stable
    sort. *)
Fixpoint insert_by {A : Type} (cmp : A -> A -> float) (x : A) (l : list A) : list A :=
  match l with
  | [] => [x]
  | y :: l' => if behind cmp x y then y :: insert_by cmp x l' else x :: l
  end.

Fixpoint sort {A : Type} (cmp : A -> A -> float) (l : list A) : list A :=
  match l with
  | [] => []
  | x :: l' => insert_by cmp x (sort cmp l')
  end.

(** Filtering by the detected intent and re-ranking (lines 240 to 254). *)
Definition rerank (detectedIntent : string) (searchResults : list SearchResult)
  : option SearchResult :=
  let relevantResults :=
    List.filter (fun r => String.eqb (intent (item r)) detectedIntent) searchResults in
  match relevantResults with
  | _ :: _ => List.head (sort compareFn relevantResults)
  | [] => List.head searchResults
  end.

(** A candidate of intent [weather] with the given score and weight. *)
Definition candidate (s : float) (w : option float) : SearchResult :=
  {| item := {| lang := "id"; intent := "weather"; questions := ["cuaca"];
                answers_a := One "Cerah"; relevanceWeight := w;
                threshold := None; nextContextId := None |};
     score := s |}.

End Rank64.

(** * Properties *)

(** ** Numbers *)

Section NumFacts.

Import Num.

Lemma Qltb_ge (a b : Q) : Qltb a b = false <-> (b <= a)%Q.
Proof.
  unfold Qltb. rewrite negb_false_iff. apply Qle_bool_iff.
Qed.

Lemma ltb_eqv_false (a b : num) : eqv a b -> ltb a b = false.
Proof.
  destruct a as [|s|x], b as [|t|y]; simpl; try contradiction; try reflexivity.
  - intros ->. destruct t; reflexivity.
  - intros H. apply Qltb_ge. rewrite H. apply Qle_refl.
Qed.

End NumFacts.

(** ** The request handler *)

Section Handler.

Import Num Str KB Bot.

Variable ext : Externals.
Variable chatbotConfig : Config.

Lemma session_after_creation (mem : gmap string Session) (sid : string) :
  default newSession
    (match mem !! sid with
     | Some _ => mem
     | None => <[sid := newSession]> mem
     end !! sid) = sessionOf mem sid.
Proof.
  unfold sessionOf. destruct (mem !! sid) as [s|] eqn:E.
  - rewrite E. reflexivity.
  - rewrite lookup_insert_eq. reflexivity.
Qed.

(** A valid request runs the pipeline on its session and stores the session
    the pipeline leaves; a throw inside the pipeline is answered with the
    server error. *)
Lemma chat_valid (mem : gmap string Session) (req : Request)
    (userInput sid : string) :
  validRequest req userInput sid ->
  (forall resp s',
      pipeline ext chatbotConfig (sessionOf mem sid) userInput = Some (resp, s') ->
      fst (chat ext chatbotConfig mem req) = resp /\
      snd (chat ext chatbotConfig mem req) !! sid = Some s') /\
  (pipeline ext chatbotConfig (sessionOf mem sid) userInput = None ->
   fst (chat ext chatbotConfig mem req) = Some serverError).
Proof.
  intros (Hq & Hs & Hqne & Hsne).
  unfold chat. rewrite Hq, Hs.
  apply String.eqb_neq in Hqne, Hsne. rewrite Hqne, Hsne. simpl orb. cbv iota.
  rewrite session_after_creation.
  split.
  - intros resp s' Hp. rewrite Hp. simpl. split; [reflexivity|].
    apply lookup_insert_eq.
  - intros Hp. rewrite Hp. reflexivity.
Qed.

(** The pipeline once the tokenizer is there: the best match decides between
    the local answer and the fallback chain. *)
Lemma pipeline_run (session : Session) (userInput : string)
    (tokenize : string -> list string) :
  tokenizerOf ext chatbotConfig = Some tokenize ->
  pipeline ext chatbotConfig session userInput =
  let lang_ := detectLanguage ext chatbotConfig userInput in
  match findBestMatch ext chatbotConfig session lang_ userInput with
  | Some r =>
      if ltb (score r) (effectiveThreshold chatbotConfig r)
      then answerLocally ext session lang_ userInput
             (recognizeEntities chatbotConfig (tokenize (toLowerCase userInput))) r
      else fallbackChain ext chatbotConfig session lang_ userInput
  | None => fallbackChain ext chatbotConfig session lang_ userInput
  end.
Proof.
  unfold tokenizerOf, pipeline. intros ->. cbv zeta.
  destruct (findBestMatch _ _ _ _ _); reflexivity.
Qed.

End Handler.

(** C7: a request that lacks the utterance or the session id (absent or
    empty) is answered with status 400 and an explanatory message, and the
    conversation memory is left exactly as it was: no session entry is
    created and none is changed. *)
Theorem chat_missing_parameter
    (ext : KB.Externals) (chatbotConfig : KB.Config)
    (mem : gmap string KB.Session) (req : KB.Request) :
  KB.str_truthy (KB.query_q req) = false \/
  KB.str_truthy (KB.query_sessionId req) = false ->
  Bot.chat ext chatbotConfig mem req = (Some Bot.badRequest, mem) /\
  KB.status Bot.badRequest = 400 /\
  (exists msg, Bot.field "error" (KB.body Bot.badRequest) = Some (KB.VStr msg)
               /\ msg <> "") /\
  (forall sid, snd (Bot.chat ext chatbotConfig mem req) !! sid = mem !! sid).
Proof.
  intros H.
  assert (Hc : Bot.chat ext chatbotConfig mem req = (Some Bot.badRequest, mem)).
  { unfold Bot.chat, KB.str_truthy in *.
    destruct (KB.query_q req) as [q|], (KB.query_sessionId req) as [sid|];
      try reflexivity.
    destruct H as [H|H]; apply negb_false_iff in H; rewrite H;
      [reflexivity | rewrite orb_true_r; reflexivity]. }
  split; [exact Hc|]. split; [reflexivity|]. split.
  - eexists. split; [reflexivity | discriminate].
  - intros sid. rewrite Hc. reflexivity.
Qed.

Lemma chat_missing_parameter_witness :
  Bot.chat (Sample.sampleExternals KB.ApiRejected)
           (Sample.sampleConfig None [Sample.weatherItem])
           ∅ {| KB.query_q := Some "cuaca"; KB.query_sessionId := None |}
  = (Some Bot.badRequest, ∅).
Proof.
  apply (chat_missing_parameter (Sample.sampleExternals KB.ApiRejected)
           (Sample.sampleConfig None [Sample.weatherItem]) ∅
           {| KB.query_q := Some "cuaca"; KB.query_sessionId := None |}).
  right. reflexivity.
Defined.

Section Acceptance.

Import Num Str KB Bot.

Variable ext : Externals.
Variable chatbotConfig : Config.

Lemma effectiveThreshold_cases (r : SearchResult Item) :
  effectiveThreshold chatbotConfig r =
  match threshold (item r) with
  | Some t =>
      if Num.truthy t then t
      else parseFloat (defaultThreshold (settings chatbotConfig))
  | None => parseFloat (defaultThreshold (settings chatbotConfig))
  end.
Proof.
  unfold effectiveThreshold, Num.or, parseFloat.
  destruct (threshold (item r)); reflexivity.
Qed.

Lemma pipeline_rejected (session : Session) (userInput : string)
    (tokenize : string -> list string) :
  tokenizerOf ext chatbotConfig = Some tokenize ->
  accepted chatbotConfig
    (findBestMatch ext chatbotConfig session
       (detectLanguage ext chatbotConfig userInput) userInput) = false ->
  pipeline ext chatbotConfig session userInput =
  fallbackChain ext chatbotConfig session
    (detectLanguage ext chatbotConfig userInput) userInput.
Proof.
  intros Htok Hacc. rewrite (pipeline_run _ _ _ _ _ Htok). cbv zeta.
  destruct (findBestMatch _ _ _ _ _) as [r|]; [|reflexivity].
  simpl in Hacc. rewrite Hacc. reflexivity.
Qed.

Lemma pipeline_accepted (session : Session) (userInput : string)
    (tokenize : string -> list string) (r : SearchResult Item) :
  tokenizerOf ext chatbotConfig = Some tokenize ->
  findBestMatch ext chatbotConfig session
    (detectLanguage ext chatbotConfig userInput) userInput = Some r ->
  ltb (score r) (effectiveThreshold chatbotConfig r) = true ->
  pipeline ext chatbotConfig session userInput =
  answerLocally ext session (detectLanguage ext chatbotConfig userInput) userInput
    (recognizeEntities chatbotConfig (tokenize (toLowerCase userInput))) r.
Proof.
  intros Htok Hbest Hlt. rewrite (pipeline_run _ _ _ _ _ Htok). cbv zeta.
  rewrite Hbest, Hlt. reflexivity.
Qed.

End Acceptance.

(** C2, as the code has it: the chosen candidate is answered locally exactly
    when its score is strictly below the effective threshold, which is the
    threshold of the item when that is present and a non-zero number, and
    the global default otherwise; a score equal to the effective threshold
    is rejected and the fallback chain runs. *)
Theorem threshold_acceptance_strict
    (ext : KB.Externals) (chatbotConfig : KB.Config) (session : KB.Session)
    (userInput : string) (tokenize : string -> list string)
    (r : KB.SearchResult KB.Item) :
  Bot.tokenizerOf ext chatbotConfig = Some tokenize ->
  Bot.findBestMatch ext chatbotConfig session
    (Bot.detectLanguage ext chatbotConfig userInput) userInput = Some r ->
  let lang_ := Bot.detectLanguage ext chatbotConfig userInput in
  let default_ := Num.parseFloat (KB.defaultThreshold (KB.settings chatbotConfig)) in
  let eff := Bot.effectiveThreshold chatbotConfig r in
  (forall t, KB.threshold (KB.item r) = Some t -> Num.truthy t = true -> eff = t) /\
  (forall t, KB.threshold (KB.item r) = Some t -> Num.truthy t = false ->
             eff = default_) /\
  (KB.threshold (KB.item r) = None -> eff = default_) /\
  (Num.ltb (KB.score r) eff = true ->
   Bot.pipeline ext chatbotConfig session userInput =
   Bot.answerLocally ext session lang_ userInput
     (Bot.recognizeEntities chatbotConfig (tokenize (Str.toLowerCase userInput))) r) /\
  (Num.ltb (KB.score r) eff = false ->
   Bot.pipeline ext chatbotConfig session userInput =
   Bot.fallbackChain ext chatbotConfig session lang_ userInput) /\
  (Num.eqv (KB.score r) eff ->
   Bot.pipeline ext chatbotConfig session userInput =
   Bot.fallbackChain ext chatbotConfig session lang_ userInput).
Proof.
  intros Htok Hbest lang_ default_ eff.
  assert (Hrej : Num.ltb (KB.score r) eff = false ->
                 Bot.pipeline ext chatbotConfig session userInput =
                 Bot.fallbackChain ext chatbotConfig session lang_ userInput).
  { intros Hlt. apply (pipeline_rejected _ _ _ _ _ Htok).
    rewrite Hbest. exact Hlt. }
  subst eff default_. rewrite effectiveThreshold_cases in *.
  repeat split.
  - intros t -> ->. reflexivity.
  - intros t -> ->. reflexivity.
  - intros ->. reflexivity.
  - intros Hlt. apply (pipeline_accepted _ _ _ _ _ _ Htok Hbest).
    rewrite effectiveThreshold_cases. exact Hlt.
  - exact Hrej.
  - intros Heq. apply Hrej. apply ltb_eqv_false. exact Heq.
Qed.

Lemma threshold_acceptance_strict_witness :
  Bot.pipeline (Sample.sampleExternals KB.ApiRejected)
    (Sample.sampleConfig None [Sample.weatherItem; Sample.fallbackItem])
    Sample.inFollowup "besok gimana" =
  Bot.fallbackChain (Sample.sampleExternals KB.ApiRejected)
    (Sample.sampleConfig None [Sample.weatherItem; Sample.fallbackItem])
    Sample.inFollowup "id" "besok gimana".
Proof.
  destruct (threshold_acceptance_strict (Sample.sampleExternals KB.ApiRejected)
              (Sample.sampleConfig None [Sample.weatherItem; Sample.fallbackItem])
              Sample.inFollowup "besok gimana" Sample.words
              {| KB.item := Sample.followupItem; KB.score := Num.Fin 0.45 |})
    as (_ & _ & _ & _ & Hrej & _).
  - reflexivity.
  - vm_compute. reflexivity.
  - apply Hrej. vm_compute. reflexivity.
Defined.

(** C2, the claim as worded fails: an item whose threshold attribute is 0
    has, in the claim's words, effective threshold 0, and a candidate of
    score 0 equals it; the handler falls back on the global default 0.4
    instead and answers from the item. *)
Lemma threshold_zero_override_accepted :
  KB.threshold Sample.exactItem = Some (Num.Fin 0) /\
  Bot.findBestMatch (Sample.sampleExternals KB.ApiRejected)
    (Sample.sampleConfig None [Sample.exactItem; Sample.fallbackItem])
    Bot.newSession "id" "status"
  = Some {| KB.item := Sample.exactItem; KB.score := Num.Fin 0 |} /\
  Num.eqv (Num.Fin 0)
    (Bot.specThreshold
       (Sample.sampleConfig None [Sample.exactItem; Sample.fallbackItem])
       {| KB.item := Sample.exactItem; KB.score := Num.Fin 0 |}) /\
  Num.ltb (Num.Fin 0)
    (Bot.specThreshold
       (Sample.sampleConfig None [Sample.exactItem; Sample.fallbackItem])
       {| KB.item := Sample.exactItem; KB.score := Num.Fin 0 |}) = false /\
  fst (Bot.chat (Sample.sampleExternals KB.ApiRejected)
         (Sample.sampleConfig None [Sample.exactItem; Sample.fallbackItem])
         ∅ (Sample.request "status" "s1"))
  = Some (Bot.json [("answer", KB.VStr "Semua normal");
                    ("intent", KB.VStr "status");
                    ("score", KB.VNum (Num.Fin 0));
                    ("source", KB.VStr "local_qa");
                    ("context", KB.VNull);
                    ("language", KB.VStr "id");
                    ("entities", KB.VObj [])]).
Proof.
  repeat split; vm_compute; reflexivity.
Qed.

(** ** Reading an answer *)

Section RandomAnswer.

Import Num KB Bot.

Lemma random_index_in_range (r : Q) (n : nat) :
  (0 <= r)%Q -> (r < 1)%Q -> (0 < n)%nat ->
  (0 <= Qfloor (r * inject_Z (Z.of_nat n)) < Z.of_nat n)%Z.
Proof.
  intros H0 H1 Hn.
  assert (Hpos : (0 < inject_Z (Z.of_nat n))%Q).
  { change 0%Q with (inject_Z 0). rewrite <- Zlt_Qlt. lia. }
  split.
  - change 0%Z with (Qfloor 0). apply Qfloor_resp_le.
    apply Qmult_le_0_compat; [exact H0 | apply Qlt_le_weak; exact Hpos].
  - rewrite Zlt_Qlt.
    apply Qle_lt_trans with (r * inject_Z (Z.of_nat n))%Q; [apply Qfloor_le|].
    apply Qlt_le_trans with (1 * inject_Z (Z.of_nat n))%Q.
    + apply Qmult_lt_compat_r; assumption.
    + rewrite Qmult_1_l. apply Qle_refl.
Qed.

Lemma getRandomAnswer_some (ext : Externals) (it : Item) :
  (0 <= mathRandom ext)%Q -> (mathRandom ext < 1)%Q ->
  to_list (answers_a it) <> [] ->
  exists answer, getRandomAnswer ext it = Some answer.
Proof.
  intros H0 H1 Hne. unfold getRandomAnswer.
  destruct (answers_a it) as [a | answers]; cbn [to_list] in *.
  - exists a. reflexivity.
  - assert (Hlen : (0 < List.length answers)%nat).
    { destruct answers; [contradiction | simpl; lia]. }
    destruct (random_index_in_range _ _ H0 H1 Hlen) as [Hlo Hhi].
    cbv zeta.
    set (idx := Qfloor (mathRandom ext *
                        inject_Z (Z.of_nat (List.length answers)))) in *.
    destruct (Z.ltb_spec idx 0); [lia|].
    destruct (nth_error answers (Z.to_nat idx)) as [a|] eqn:E.
    + exists a. reflexivity.
    + apply nth_error_None in E. lia.
Qed.

Lemma getRandomAnswer_in_answers (ext : Externals) (it : Item) :
  (0 <= mathRandom ext)%Q -> (mathRandom ext < 1)%Q ->
  to_list (answers_a it) <> [] ->
  exists answer, getRandomAnswer ext it = Some answer /\
                 In answer (to_list (answers_a it)).
Proof.
  intros H0 H1 Hne.
  destruct (getRandomAnswer_some ext it H0 H1 Hne) as [a Ha].
  exists a. split; [exact Ha|].
  unfold getRandomAnswer in Ha.
  destruct (answers_a it) as [x | answers]; cbn [to_list].
  - injection Ha as <-. left. reflexivity.
  - cbv zeta in Ha. destruct (_ <? 0)%Z; [discriminate|].
    exact (nth_error_In _ _ Ha).
Qed.

End RandomAnswer.

(** ** The fallback chain *)

Section Fallback.

Import Num Str KB Bot.

Variable ext : Externals.
Variable chatbotConfig : Config.

(** The external tier answers exactly when the endpoint is configured and
    the call resolves with a readable body. *)
Lemma apiFallbackStep_resolved (session : Session) (lang_ userInput u : string)
    (fallbackApi : ApiFallback) (answer : value) :
  apiFallback (settings chatbotConfig) = Some fallbackApi ->
  url fallbackApi = Some u -> u <> "" ->
  axiosGet ext u userInput = ApiBody answer ->
  apiFallbackStep ext chatbotConfig session lang_ userInput =
  let apiAnswer := if truthy answer then answer else VStr apiDefaultAnswer in
  Some (json [("answer", apiAnswer);
              ("intent", VStr "api_fallback");
              ("source", VStr "api_fallback");
              ("context", VNull);
              ("language", VStr lang_)],
        push session userInput apiAnswer None).
Proof.
  intros Hapi Hurl Hne Hget. unfold apiFallbackStep.
  rewrite Hapi, Hurl. apply String.eqb_neq in Hne. rewrite Hne, Hget.
  reflexivity.
Qed.

Lemma apiFallbackStep_failed (session : Session) (lang_ userInput u : string)
    (fallbackApi : ApiFallback) :
  apiFallback (settings chatbotConfig) = Some fallbackApi ->
  url fallbackApi = Some u ->
  axiosGet ext u userInput = ApiRejected \/ axiosGet ext u userInput = ApiNoBody ->
  apiFallbackStep ext chatbotConfig session lang_ userInput = None.
Proof.
  intros Hapi Hurl Hget. unfold apiFallbackStep. rewrite Hapi, Hurl.
  destruct (String.eqb u ""); [reflexivity|].
  destruct Hget as [-> | ->]; reflexivity.
Qed.

(** With no external answer and no static fallback item of the language,
    the chain ends without a response and without touching the session. *)
Lemma fallbackChain_silent (session : Session) (lang_ userInput : string) :
  apiFallbackStep ext chatbotConfig session lang_ userInput = None ->
  List.find (fun it => String.eqb (intent it) "fallback"
                       && String.eqb (lang it) lang_)
            (qaItems chatbotConfig) = None ->
  fallbackChain ext chatbotConfig session lang_ userInput = Some (None, session).
Proof.
  intros Hapi Hfind. unfold fallbackChain, staticFallbackStep.
  rewrite Hapi, Hfind. reflexivity.
Qed.

End Fallback.

(** C3: the handler at the triple failure.  The utterance matches nothing,
    the configured external call is rejected and the knowledge base has no
    item of intent [fallback]: the handler ends without sending any
    response; the session it created stays empty. *)
Theorem chat_triple_failure_no_response :
  Bot.validRequest (Sample.request "xyz" "s1") "xyz" "s1" /\
  fst (Bot.chat (Sample.sampleExternals KB.ApiRejected)
         (Sample.sampleConfig Sample.someApi [Sample.weatherItem])
         ∅ (Sample.request "xyz" "s1")) = None /\
  snd (Bot.chat (Sample.sampleExternals KB.ApiRejected)
         (Sample.sampleConfig Sample.someApi [Sample.weatherItem])
         ∅ (Sample.request "xyz" "s1")) !! "s1" = Some Bot.newSession.
Proof.
  split; [|split].
  - unfold Bot.validRequest. repeat split; (reflexivity || discriminate).
  - vm_compute. reflexivity.
  - vm_compute. reflexivity.
Qed.

(** C4, as the code has it: when no local match is accepted and the
    configured external call resolves with a body, the response carries the
    [answer] property of the body, or the literal default when that property
    is absent or falsy; its source and its intent field are both
    [api_fallback], it has no score field, its context is null; the session
    gets one more history entry and its active context is cleared.  The
    session id is not a name found in [Object.prototype]. *)
Theorem api_fallback_response
    (ext : KB.Externals) (chatbotConfig : KB.Config)
    (mem : gmap string KB.Session) (req : KB.Request)
    (userInput sid u : string) (tokenize : string -> list string)
    (fallbackApi : KB.ApiFallback) (answer : KB.value) :
  Bot.validRequest req userInput sid ->
  Ids.inheritedName sid = false ->
  Bot.tokenizerOf ext chatbotConfig = Some tokenize ->
  Bot.accepted chatbotConfig
    (Bot.findBestMatch ext chatbotConfig (Bot.sessionOf mem sid)
       (Bot.detectLanguage ext chatbotConfig userInput) userInput) = false ->
  KB.apiFallback (KB.settings chatbotConfig) = Some fallbackApi ->
  KB.url fallbackApi = Some u -> u <> "" ->
  KB.axiosGet ext u userInput = KB.ApiBody answer ->
  exists resp apiAnswer,
    fst (Bot.chat ext chatbotConfig mem req) = Some resp /\
    apiAnswer = (if KB.truthy answer then answer else KB.VStr Bot.apiDefaultAnswer) /\
    KB.status resp = 200 /\
    Bot.field "answer" (KB.body resp) = Some apiAnswer /\
    Bot.field "source" (KB.body resp) = Some (KB.VStr "api_fallback") /\
    Bot.field "intent" (KB.body resp) = Some (KB.VStr "api_fallback") /\
    Bot.field "score" (KB.body resp) = None /\
    Bot.field "context" (KB.body resp) = Some KB.VNull /\
    snd (Bot.chat ext chatbotConfig mem req) !! sid =
    Some {| KB.history := KB.history (Bot.sessionOf mem sid) ++
                          [{| KB.user := userInput; KB.bot := apiAnswer |}];
            KB.context := None |}.
Proof.
  intros Hvalid _ Htok Hrej Hapi Hurl Hne Hget.
  destruct (chat_valid ext chatbotConfig mem req userInput sid Hvalid) as [Hrun _].
  pose proof (pipeline_rejected _ _ _ _ _ Htok Hrej) as Hp.
  unfold Bot.fallbackChain in Hp.
  rewrite (apiFallbackStep_resolved _ _ _ _ _ _ _ _ Hapi Hurl Hne Hget) in Hp.
  cbv zeta in Hp. destruct (Hrun _ _ Hp) as [Hresp Hmem].
  eexists. eexists. split; [exact Hresp|].
  split; [reflexivity|]. rewrite Hmem. repeat split; reflexivity.
Qed.

Lemma api_fallback_response_witness :
  exists resp,
    fst (Bot.chat (Sample.sampleExternals (KB.ApiBody (KB.VStr "Coba lagi besok")))
           (Sample.sampleConfig Sample.someApi [Sample.weatherItem; Sample.fallbackItem])
           ∅ (Sample.request "xyz" "s1")) = Some resp /\
    Bot.field "answer" (KB.body resp) = Some (KB.VStr "Coba lagi besok").
Proof.
  destruct (api_fallback_response
              (Sample.sampleExternals (KB.ApiBody (KB.VStr "Coba lagi besok")))
              (Sample.sampleConfig Sample.someApi [Sample.weatherItem; Sample.fallbackItem])
              ∅ (Sample.request "xyz" "s1") "xyz" "s1" "http://fallback.example/api"
              Sample.words {| KB.url := Some "http://fallback.example/api" |}
              (KB.VStr "Coba lagi besok"))
    as (resp & apiAnswer & Hresp & Hans & _ & Hfield & _).
  - unfold Bot.validRequest. repeat split; (reflexivity || discriminate).
  - reflexivity.
  - reflexivity.
  - vm_compute. reflexivity.
  - reflexivity.
  - reflexivity.
  - discriminate.
  - reflexivity.
  - exists resp. split; [exact Hresp|]. rewrite Hfield, Hans. reflexivity.
Defined.

(** C4, the claim as worded fails: the response of a successful external
    fallback does contain an intent field. *)
Lemma api_fallback_has_intent_field :
  exists resp,
    fst (Bot.chat (Sample.sampleExternals (KB.ApiBody (KB.VStr "Coba lagi besok")))
           (Sample.sampleConfig Sample.someApi [Sample.weatherItem; Sample.fallbackItem])
           ∅ (Sample.request "xyz" "s1")) = Some resp /\
    Bot.field "source" (KB.body resp) = Some (KB.VStr "api_fallback") /\
    Bot.field "intent" (KB.body resp) <> None.
Proof.
  eexists. split; [vm_compute; reflexivity|].
  split; [reflexivity | discriminate].
Qed.

(** C6, as the code has it: when no local match is accepted and the
    configured external call is rejected (timeout, network error, error
    status) or resolves with a null body, the failure stays inside the
    handler and the pipeline goes on with the static tier, exactly as that
    tier decides; with an item of intent [fallback] in the detected language
    that has answers, the response has status 200, source [local_fallback]
    and one of the item's answers, and the session's context is cleared.
    The session id is not a name found in [Object.prototype] and
    [Math.random()] is in its range. *)
Theorem api_failure_falls_to_static
    (ext : KB.Externals) (chatbotConfig : KB.Config)
    (mem : gmap string KB.Session) (req : KB.Request)
    (userInput sid u : string) (tokenize : string -> list string)
    (fallbackApi : KB.ApiFallback) :
  Bot.validRequest req userInput sid ->
  Ids.inheritedName sid = false ->
  Bot.tokenizerOf ext chatbotConfig = Some tokenize ->
  Bot.accepted chatbotConfig
    (Bot.findBestMatch ext chatbotConfig (Bot.sessionOf mem sid)
       (Bot.detectLanguage ext chatbotConfig userInput) userInput) = false ->
  KB.apiFallback (KB.settings chatbotConfig) = Some fallbackApi ->
  KB.url fallbackApi = Some u ->
  KB.axiosGet ext u userInput = KB.ApiRejected \/
  KB.axiosGet ext u userInput = KB.ApiNoBody ->
  (0 <= KB.mathRandom ext)%Q -> (KB.mathRandom ext < 1)%Q ->
  let lang_ := Bot.detectLanguage ext chatbotConfig userInput in
  Bot.pipeline ext chatbotConfig (Bot.sessionOf mem sid) userInput =
  Bot.staticFallbackStep ext chatbotConfig (Bot.sessionOf mem sid) lang_ userInput /\
  forall fallbackItem,
    List.find (fun it => String.eqb (KB.intent it) "fallback"
                         && String.eqb (KB.lang it) lang_)
              (KB.qaItems chatbotConfig) = Some fallbackItem ->
    KB.to_list (KB.answers_a fallbackItem) <> [] ->
    exists fallbackAnswer,
      In fallbackAnswer (KB.to_list (KB.answers_a fallbackItem)) /\
      fst (Bot.chat ext chatbotConfig mem req) =
      Some (Bot.json [("answer", KB.VStr fallbackAnswer);
                      ("intent", KB.VStr "fallback");
                      ("source", KB.VStr "local_fallback");
                      ("context", KB.VNull);
                      ("language", KB.VStr lang_)]) /\
      snd (Bot.chat ext chatbotConfig mem req) !! sid =
      Some (Bot.push (Bot.sessionOf mem sid) userInput (KB.VStr fallbackAnswer) None).
Proof.
  intros Hvalid _ Htok Hrej Hapi Hurl Hget H0 H1 lang_.
  destruct (chat_valid ext chatbotConfig mem req userInput sid Hvalid) as [Hrun _].
  pose proof (pipeline_rejected _ _ _ _ _ Htok Hrej) as Hp.
  unfold Bot.fallbackChain in Hp.
  rewrite (apiFallbackStep_failed _ _ _ _ _ _ _ Hapi Hurl Hget) in Hp.
  split; [exact Hp|].
  intros fb Hfind Hne.
  destruct (getRandomAnswer_in_answers ext fb H0 H1 Hne) as (ans & Hans & Hin).
  exists ans. split; [exact Hin|].
  unfold Bot.staticFallbackStep in Hp. fold lang_ in Hp.
  rewrite Hfind, Hans in Hp.
  exact (Hrun _ _ Hp).
Qed.

Lemma api_failure_falls_to_static_witness :
  exists fallbackAnswer,
    fst (Bot.chat (Sample.sampleExternals KB.ApiRejected)
           (Sample.sampleConfig Sample.someApi [Sample.weatherItem; Sample.fallbackItem])
           ∅ (Sample.request "xyz" "s1")) =
    Some (Bot.json [("answer", KB.VStr fallbackAnswer);
                    ("intent", KB.VStr "fallback");
                    ("source", KB.VStr "local_fallback");
                    ("context", KB.VNull);
                    ("language", KB.VStr "id")]).
Proof.
  destruct (api_failure_falls_to_static
              (Sample.sampleExternals KB.ApiRejected)
              (Sample.sampleConfig Sample.someApi [Sample.weatherItem; Sample.fallbackItem])
              ∅ (Sample.request "xyz" "s1") "xyz" "s1" "http://fallback.example/api"
              Sample.words {| KB.url := Some "http://fallback.example/api" |})
    as [_ Hstatic].
  - unfold Bot.validRequest. repeat split; (reflexivity || discriminate).
  - reflexivity.
  - reflexivity.
  - vm_compute. reflexivity.
  - reflexivity.
  - reflexivity.
  - left. reflexivity.
  - discriminate.
  - reflexivity.
  - destruct (Hstatic Sample.fallbackItem) as (ans & _ & Hresp & _).
    + vm_compute. reflexivity.
    + discriminate.
    + exists ans. exact Hresp.
Defined.

(** C6, the claim as worded fails for a response of the wrong shape: a body
    that has no [answer] property is not treated as a failure.  With the
    static fallback item present, the response is still the external tier's,
    carrying the literal default. *)
Lemma api_bad_shape_not_static :
  fst (Bot.chat (Sample.sampleExternals (KB.ApiBody KB.VUndefined))
         (Sample.sampleConfig Sample.someApi [Sample.weatherItem; Sample.fallbackItem])
         ∅ (Sample.request "xyz" "s1")) =
  Some (Bot.json [("answer", KB.VStr "Maaf, API eksternal juga bingung.");
                  ("intent", KB.VStr "api_fallback");
                  ("source", KB.VStr "api_fallback");
                  ("context", KB.VNull);
                  ("language", KB.VStr "id")]) /\
  List.find (fun it => String.eqb (KB.intent it) "fallback"
                       && String.eqb (KB.lang it) "id")
            (KB.qaItems (Sample.sampleConfig Sample.someApi
                           [Sample.weatherItem; Sample.fallbackItem]))
  = Some Sample.fallbackItem.
Proof.
  split; vm_compute; reflexivity.
Qed.

(** ** Contextual matches and local answers *)

Section Local.

Import Num Str KB Bot.

Variable ext : Externals.
Variable chatbotConfig : Config.

(** A context that resolves and whose search gives a result decides the
    best match, whatever the language and the intent search. *)
Lemma contextSearch_top (session : Session) (userInput cid : string)
    (contextData : Context) (items : OneOrMany Item)
    (r : SearchResult Item) (rest : list (SearchResult Item)) :
  context session = Some cid -> cid <> "" ->
  List.find (fun c => String.eqb cid (context_id c)) (contexts chatbotConfig)
  = Some contextData ->
  context_item contextData = Some items ->
  fuseItems ext (Fin 0.5) (to_list items) userInput = r :: rest ->
  contextSearch ext chatbotConfig session userInput = Some r.
Proof.
  intros Hctx Hne Hfind Hitems Hsearch. unfold contextSearch.
  rewrite Hctx. simpl. apply String.eqb_neq in Hne. rewrite Hne. simpl.
  rewrite Hfind, Hitems, Hsearch. reflexivity.
Qed.



(** The accepted local answer, read at the level of the handler. *)
Lemma chat_local_answer (mem : gmap string Session) (req : Request)
    (userInput sid answer : string) (tokenize : string -> list string)
    (r : SearchResult Item) :
  validRequest req userInput sid ->
  tokenizerOf ext chatbotConfig = Some tokenize ->
  findBestMatch ext chatbotConfig (sessionOf mem sid)
    (detectLanguage ext chatbotConfig userInput) userInput = Some r ->
  ltb (score r) (effectiveThreshold chatbotConfig r) = true ->
  getRandomAnswer ext (item r) = Some answer ->
  let foundEntities :=
    recognizeEntities chatbotConfig (tokenize (toLowerCase userInput)) in
  let personalized := personalizeAnswer answer foundEntities in
  fst (chat ext chatbotConfig mem req) =
  Some (json [("answer", VStr personalized);
              ("intent", VStr (intent (item r)));
              ("score", VNum (score r));
              ("source", VStr "local_qa");
              ("context", context_value (nextContext (item r)));
              ("language", VStr (detectLanguage ext chatbotConfig userInput));
              ("entities", VObj foundEntities)]) /\
  snd (chat ext chatbotConfig mem req) !! sid =
  Some (push (sessionOf mem sid) userInput (VStr personalized)
             (nextContext (item r))).
Proof.
  intros Hvalid Htok Hbest Hlt Hans foundEntities personalized.
  destruct (chat_valid ext chatbotConfig mem req userInput sid Hvalid) as [Hrun _].
  pose proof (pipeline_accepted _ _ _ _ _ _ Htok Hbest Hlt) as Hp.
  unfold answerLocally in Hp. rewrite Hans in Hp.
  exact (Hrun _ _ Hp).
Qed.

(** The same with a readable answer: [Math.random()] in its range and an
    item that has answers. *)
Lemma chat_local_outcome (mem : gmap string Session) (req : Request)
    (userInput sid : string) (tokenize : string -> list string)
    (r : SearchResult Item) :
  validRequest req userInput sid ->
  tokenizerOf ext chatbotConfig = Some tokenize ->
  findBestMatch ext chatbotConfig (sessionOf mem sid)
    (detectLanguage ext chatbotConfig userInput) userInput = Some r ->
  ltb (score r) (effectiveThreshold chatbotConfig r) = true ->
  (0 <= mathRandom ext)%Q -> (mathRandom ext < 1)%Q ->
  to_list (answers_a (item r)) <> [] ->
  exists answer : string,
    fst (chat ext chatbotConfig mem req) =
    Some (json [("answer", VStr answer);
                ("intent", VStr (intent (item r)));
                ("score", VNum (score r));
                ("source", VStr "local_qa");
                ("context", context_value (nextContext (item r)));
                ("language", VStr (detectLanguage ext chatbotConfig userInput));
                ("entities",
                 VObj (recognizeEntities chatbotConfig
                         (tokenize (toLowerCase userInput))))]) /\
    snd (chat ext chatbotConfig mem req) !! sid =
    Some (push (sessionOf mem sid) userInput (VStr answer) (nextContext (item r))).
Proof.
  intros Hvalid Htok Hbest Hlt H0 H1 Hne.
  destruct (getRandomAnswer_some ext (item r) H0 H1 Hne) as [a Ha].
  eexists.
  exact (chat_local_answer mem req userInput sid a tokenize r
           Hvalid Htok Hbest Hlt Ha).
Qed.

End Local.






(** ** Entity recognition *)

Section Entities.

Import Num Str KB Bot.

Variable lower : string -> string.




Lemma recognizeEntities_scan (chatbotConfig : Config) (tokens : list string) :
  Recognize.recognizeEntities lower chatbotConfig tokens =
  fold_left (fun found entity => Recognize.scanTokens lower entity tokens found)
            (entities chatbotConfig) [].
Proof. reflexivity. Qed.








End Entities.



(** ** Personalisation *)

Section Personalize.

Import Str Bot.

Lemma append_cons (c : ascii) (a b : string) :
  String c a ++ b = String c (a ++ b).
Proof. reflexivity. Qed.

Lemma append_nil_l (s : string) : "" ++ s = s.
Proof. reflexivity. Qed.

Lemma append_nil_r (s : string) : s ++ "" = s.
Proof.
  induction s as [|c s IH]; [reflexivity|].
  rewrite append_cons, IH. reflexivity.
Qed.

Lemma append_assoc (a b c : string) : (a ++ b) ++ c = a ++ (b ++ c).
Proof.
  induction a as [|x a IH]; [reflexivity|].
  rewrite !append_cons, IH. reflexivity.
Qed.

Lemma prefix_split (p s : string) :
  String.prefix p s = true -> s = p ++ drop (String.length p) s.
Proof.
  revert s. induction p as [|c p IH]; intros s H; simpl.
  - reflexivity.
  - destruct s as [|d s]; simpl in H; [discriminate|].
    destruct (ascii_dec c d) as [->|]; [|discriminate].
    simpl String.length. simpl drop. rewrite append_cons. f_equal.
    apply IH. exact H.
Qed.

(** A replacement without a dollar sign is inserted as it is. *)
Lemma getSubstitution_plain (matched before after v : string) :
  has_char "$" v = false -> getSubstitution matched before after v = v.
Proof.
  induction v as [|c v IH]; intros H; [reflexivity|].
  cbn [has_char] in H. apply orb_false_iff in H. destruct H as [Hc Hv].
  cbn [getSubstitution]. rewrite Ascii.eqb_sym, Hc. rewrite (IH Hv). reflexivity.
Qed.

Lemma replace_from_found (pattern replacement : string) :
  forall s before n,
    indexOf pattern s = Some n ->
    replace_from before pattern replacement s =
    before ++ take n s ++
    getSubstitution pattern (before ++ take n s)
      (drop (n + String.length pattern) s) replacement ++
    drop (n + String.length pattern) s.
Proof.
  induction s as [|c s IH]; intros before n H;
    cbn [indexOf] in H; cbn [replace_from];
    destruct (String.prefix pattern _) eqn:E.
  - injection H as <-. cbn [take Nat.add].
    rewrite append_nil_l, append_nil_r. reflexivity.
  - discriminate.
  - injection H as <-. cbn [take Nat.add].
    rewrite append_nil_l, append_nil_r. reflexivity.
  - destruct (indexOf pattern s) as [m|] eqn:Em; [|discriminate].
    injection H as <-. rewrite (IH _ m eq_refl).
    cbn [take drop Nat.add]. rewrite !append_assoc, !append_cons, !append_nil_l.
    reflexivity.
Qed.

Lemma replace_from_absent (pattern replacement : string) :
  forall s before,
    indexOf pattern s = None ->
    replace_from before pattern replacement s = before ++ s.
Proof.
  induction s as [|c s IH]; intros before H;
    cbn [indexOf] in H; cbn [replace_from];
    destruct (String.prefix pattern _) eqn:E; try discriminate.
  - rewrite append_nil_r. reflexivity.
  - destruct (indexOf pattern s); [discriminate|].
    rewrite IH by reflexivity.
    rewrite append_assoc, append_cons, append_nil_l. reflexivity.
Qed.

(** [indexOf] gives the first place where the pattern stands. *)
Lemma indexOf_first (pattern : string) :
  forall s n,
    indexOf pattern s = Some n ->
    s = take n s ++ pattern ++ drop (n + String.length pattern) s /\
    forall m, (m < n)%nat -> String.prefix pattern (drop m s) = false.
Proof.
  induction s as [|c s IH]; intros n H;
    cbn [indexOf] in H;
    destruct (String.prefix pattern _) eqn:E.
  - injection H as <-. split; [|intros m Hm; lia].
    cbn [take Nat.add]. rewrite append_nil_l. apply (prefix_split _ _ E).
  - discriminate.
  - injection H as <-. split; [|intros m Hm; lia].
    cbn [take Nat.add]. rewrite append_nil_l. apply (prefix_split _ _ E).
  - destruct (indexOf pattern s) as [k|] eqn:Ek; [|discriminate].
    injection H as <-. destruct (IH k eq_refl) as [Hs Hmin]. split.
    + cbn [take drop Nat.add]. rewrite append_cons. f_equal. exact Hs.
    + intros [|m] Hm; cbn [drop]; [exact E | apply Hmin; lia].
Qed.

Lemma replace_found (pattern v s : string) (n : nat) :
  has_char "$" v = false ->
  indexOf pattern s = Some n ->
  replace pattern v s = take n s ++ v ++ drop (n + String.length pattern) s.
Proof.
  intros Hv Hn. unfold replace.
  rewrite (replace_from_found _ _ _ _ _ Hn).
  rewrite (getSubstitution_plain _ _ _ _ Hv). reflexivity.
Qed.

Lemma replace_absent (pattern v s : string) :
  indexOf pattern s = None -> replace pattern v s = s.
Proof.
  intros Hn. unfold replace. rewrite (replace_from_absent _ _ _ _ Hn). reflexivity.
Qed.

Lemma personalizeAnswer_cons (answer key v : string) rest :
  personalizeAnswer answer ((key, v) :: rest) =
  personalizeAnswer (replace (placeholder key) v answer) rest.
Proof. reflexivity. Qed.

Lemma personalizeAnswer_unmatched (answer : string) (entities : list (string * string)) :
  (forall kv, In kv entities -> indexOf (placeholder (fst kv)) answer = None) ->
  personalizeAnswer answer entities = answer.
Proof.
  induction entities as [|[k v] entities IH]; intros H.
  - reflexivity.
  - rewrite personalizeAnswer_cons.
    rewrite (replace_absent _ _ _ (H (k, v) (or_introl eq_refl))).
    apply IH. intros kv Hin. apply H. right. exact Hin.
Qed.

End Personalize.

(** C9: for a recognised entity whose value has no dollar sign (a word
    token), [personalizeAnswer] replaces the first occurrence of the
    entity's placeholder in the answer with the value and keeps the text
    before and after it, later occurrences included, as it is, and goes on
    with the remaining entities; a placeholder that does not occur changes
    nothing, and an answer in which no recognised entity's placeholder
    occurs is returned unchanged. *)
Theorem personalizeAnswer_first_occurrence
    (answer key v : string) (rest : list (string * string)) :
  Str.has_char "$" v = false ->
  (forall n,
      Str.indexOf (Bot.placeholder key) answer = Some n ->
      answer = Str.take n answer ++ Bot.placeholder key ++
               Str.drop (n + String.length (Bot.placeholder key)) answer /\
      (forall m, (m < n)%nat ->
                 String.prefix (Bot.placeholder key) (Str.drop m answer) = false) /\
      Bot.personalizeAnswer answer ((key, v) :: rest) =
      Bot.personalizeAnswer
        (Str.take n answer ++ v ++
         Str.drop (n + String.length (Bot.placeholder key)) answer) rest) /\
  (Str.indexOf (Bot.placeholder key) answer = None ->
   Bot.personalizeAnswer answer ((key, v) :: rest) =
   Bot.personalizeAnswer answer rest) /\
  (forall entities,
      (forall kv, In kv entities ->
                  Str.indexOf (Bot.placeholder (fst kv)) answer = None) ->
      Bot.personalizeAnswer answer entities = answer).
Proof.
  intros Hv. split; [|split].
  - intros n Hn. destruct (indexOf_first _ _ _ Hn) as [Hs Hmin].
    split; [exact Hs|]. split; [exact Hmin|].
    rewrite personalizeAnswer_cons. rewrite (replace_found _ _ _ _ Hv Hn).
    reflexivity.
  - intros Hn. rewrite personalizeAnswer_cons.
    rewrite (replace_absent _ _ _ Hn). reflexivity.
  - apply personalizeAnswer_unmatched.
Qed.

Lemma personalizeAnswer_first_occurrence_witness :
  Bot.personalizeAnswer "Cuaca di {city} cerah, {city}!" [("city", "jakarta")]
  = "Cuaca di jakarta cerah, {city}!".
Proof.
  destruct (personalizeAnswer_first_occurrence
              "Cuaca di {city} cerah, {city}!" "city" "jakarta" [])
    as [Hfound _].
  - reflexivity.
  - destruct (Hfound 9%nat) as (_ & _ & Hres); [reflexivity|].
    rewrite Hres. reflexivity.
Defined.

(** ** Re-ranking *)

Section Rerank.

Import KB Rank64.

Context {A : Type}.
Variable cmp : A -> A -> float.

Lemma insert_by_perm (x : A) (l : list A) :
  Permutation (x :: l) (insert_by cmp x l).
Proof.
  induction l as [|y l IH]; cbn [insert_by].
  - apply Permutation_refl.
  - destruct (behind cmp x y).
    + apply perm_trans with (y :: x :: l); [apply perm_swap|].
      apply perm_skip. exact IH.
    + apply Permutation_refl.
Qed.

Lemma sort_perm (l : list A) : Permutation l (sort cmp l).
Proof.
  induction l as [|x l IH]; cbn [sort].
  - apply perm_nil.
  - apply perm_trans with (x :: sort cmp l);
      [apply perm_skip; exact IH | apply insert_by_perm].
Qed.

Lemma insert_by_sorted (s : list A) (x : A) (l : list A) :
  consistentOn cmp s -> In x s -> (forall z, In z l -> In z s) ->
  StronglySorted (fun a b => behind cmp a b = false) l ->
  StronglySorted (fun a b => behind cmp a b = false) (insert_by cmp x l).
Proof.
  intros [Hasym Htrans] Hx Hl Hs.
  induction Hs as [|y l Hs IH Hy]; cbn [insert_by].
  - apply SSorted_cons; constructor.
  - assert (Hys : In y s) by (apply Hl; left; reflexivity).
    assert (Hls : forall z, In z l -> In z s) by (intros z Hz; apply Hl; right; exact Hz).
    destruct (behind cmp x y) eqn:E.
    + apply SSorted_cons; [apply IH; exact Hls|].
      apply List.Forall_forall. intros z Hz.
      apply (Permutation_in _ (Permutation_sym (insert_by_perm x l))) in Hz.
      destruct Hz as [<- | Hz].
      * apply Hasym; assumption.
      * exact (proj1 (List.Forall_forall _ _) Hy z Hz).
    + apply SSorted_cons; [apply SSorted_cons; assumption|].
      apply List.Forall_cons; [exact E|].
      apply List.Forall_forall. intros z Hz.
      apply (Htrans x y z Hx Hys (Hls z Hz) E).
      exact (proj1 (List.Forall_forall _ _) Hy z Hz).
Qed.

Lemma sort_sorted (s l : list A) :
  consistentOn cmp s -> (forall z, In z l -> In z s) ->
  StronglySorted (fun a b => behind cmp a b = false) (sort cmp l).
Proof.
  intros Hc. induction l as [|x l IH]; intros Hl; cbn [sort].
  - constructor.
  - apply (insert_by_sorted s); [exact Hc | apply Hl; left; reflexivity | |].
    + intros z Hz.
      apply (Permutation_in _ (Permutation_sym (sort_perm l))) in Hz.
      apply Hl. right. exact Hz.
    + apply IH. intros z Hz. apply Hl. right. exact Hz.
Qed.

(** The head of the sorted array is the earliest element that the ones
    before it are behind and that is behind none of the later ones. *)
Lemma sort_head_first (pre post : list A) (best : A) :
  (forall p, In p pre -> behind cmp p best = true) ->
  (forall q, In q post -> behind cmp best q = false) ->
  List.head (sort cmp (pre ++ best :: post)) = Some best.
Proof.
  intros Hpre Hpost. induction pre as [|p pre IH].
  - cbn [app sort].
    pose proof (sort_perm post) as Hperm.
    destruct (sort cmp post) as [|y tl]; [reflexivity|].
    cbn [insert_by].
    assert (Hy : In y post).
    { apply (Permutation_in _ (Permutation_sym Hperm)). left. reflexivity. }
    rewrite (Hpost y Hy). reflexivity.
  - cbn [app sort].
    assert (IH' := IH (fun x Hx => Hpre x (or_intror Hx))).
    destruct (sort cmp (pre ++ best :: post)) as [|y tl]; [discriminate|].
    injection IH' as ->. cbn [insert_by].
    rewrite (Hpre p (or_introl eq_refl)). reflexivity.
Qed.

End Rerank.

Section RerankIntent.

Import KB Rank64.

Lemma rerank_relevant (detectedIntent : string) (searchResults : list SearchResult) :
  List.filter (fun r => String.eqb (intent (item r)) detectedIntent) searchResults
  <> [] ->
  rerank detectedIntent searchResults =
  List.head
    (sort compareFn
       (List.filter (fun r => String.eqb (intent (item r)) detectedIntent)
                    searchResults)).
Proof.
  intros Hne. unfold rerank.
  destruct (List.filter _ searchResults); [contradiction | reflexivity].
Qed.

Lemma rerank_none_relevant (detectedIntent : string)
    (searchResults : list SearchResult) :
  List.filter (fun r => String.eqb (intent (item r)) detectedIntent) searchResults
  = [] ->
  rerank detectedIntent searchResults = List.head searchResults.
Proof. intros Hnil. unfold rerank. rewrite Hnil. reflexivity. Qed.

End RerankIntent.

(** C5, on the binary64 numbers of the code: the candidates are filtered to
    those of the detected intent; when some remain, they are sorted by the
    comparator [a.score / weightA - b.score / weightB] (weight 1.0 when the
    item gives none) and the first one is chosen, so the chosen candidate
    has the detected intent and the comparator puts it behind no remaining
    candidate; when none remains, the top of the unfiltered results is
    chosen, so the intent never filters a non-empty result list down to
    nothing.  The comparator is consistent on the candidates, as [sort]
    requires and as it is whenever the keys are numbers. *)
Theorem rerank_by_weighted_score
    (detectedIntent : string) (searchResults : list Rank64.SearchResult) :
  let relevantResults :=
    List.filter (fun r => String.eqb (Rank64.intent (Rank64.item r)) detectedIntent)
                searchResults in
  Rank64.consistentOn Rank64.compareFn relevantResults ->
  (relevantResults <> [] ->
   exists best others,
     Rank64.rerank detectedIntent searchResults = Some best /\
     Permutation relevantResults (best :: others) /\
     StronglySorted (fun a b => Rank64.behind Rank64.compareFn a b = false)
                    (best :: others) /\
     Rank64.intent (Rank64.item best) = detectedIntent /\
     In best searchResults /\
     (forall r, In r relevantResults ->
                Rank64.behind Rank64.compareFn best r = false)) /\
  (relevantResults = [] ->
   Rank64.rerank detectedIntent searchResults = List.head searchResults) /\
  (forall a b,
      Rank64.compareFn a b =
      PrimFloat.sub
        (PrimFloat.div (Rank64.score a)
           (match Rank64.relevanceWeight (Rank64.item a) with
            | Some w => w
            | None => 1%float
            end))
        (PrimFloat.div (Rank64.score b)
           (match Rank64.relevanceWeight (Rank64.item b) with
            | Some w => w
            | None => 1%float
            end))).
Proof.
  intros relevantResults Hcons.
  split; [|split; [apply rerank_none_relevant | reflexivity]].
  intros Hne. rewrite (rerank_relevant _ _ Hne). fold relevantResults.
  pose proof (sort_perm Rank64.compareFn relevantResults) as Hperm.
  pose proof (sort_sorted Rank64.compareFn relevantResults relevantResults
                Hcons (fun z Hz => Hz)) as Hsorted.
  destruct (Rank64.sort Rank64.compareFn relevantResults) as [|best others].
  { apply Permutation_sym, Permutation_nil in Hperm. contradiction. }
  exists best, others. split; [reflexivity|].
  split; [exact Hperm|]. split; [exact Hsorted|].
  assert (Hin : In best relevantResults).
  { apply (Permutation_in _ (Permutation_sym Hperm)). left. reflexivity. }
  pose proof Hin as Hin'. apply filter_In in Hin'. destruct Hin' as [Hin0 Hint].
  split; [apply String.eqb_eq; exact Hint|]. split; [exact Hin0|].
  intros r Hr. apply (Permutation_in _ Hperm) in Hr.
  apply StronglySorted_inv in Hsorted. destruct Hsorted as [_ Hall].
  destruct Hr as [<- | Hr].
  - destruct Hcons as [Hasym _].
    destruct (Rank64.behind Rank64.compareFn best best) eqn:E; [|reflexivity].
    rewrite (Hasym best best Hin Hin E) in E. discriminate.
  - exact (proj1 (List.Forall_forall _ _) Hall r Hr).
Qed.

Lemma rerank_by_weighted_score_witness :
  Rank64.rerank "weather"
    [Rank64.candidate 0.30 (Some 1.0%float);
     Rank64.candidate 0.35 (Some 2.0%float)]
  = Some (Rank64.candidate 0.35 (Some 2.0%float)) /\
  Rank64.behind Rank64.compareFn
    (Rank64.candidate 0.35 (Some 2.0%float))
    (Rank64.candidate 0.30 (Some 1.0%float)) = false.
Proof.
  destruct (rerank_by_weighted_score "weather"
              [Rank64.candidate 0.30 (Some 1.0%float);
               Rank64.candidate 0.35 (Some 2.0%float)])
    as [Hsome _].
  - split.
    + intros a b [<- | [<- | []]] [<- | [<- | []]];
        vm_compute; intros; congruence.
    + intros a b c [<- | [<- | []]] [<- | [<- | []]] [<- | [<- | []]];
        vm_compute; intros; congruence.
  - destruct Hsome as (best & others & Hbest & _ & _ & _ & _ & Hmin);
      [discriminate|].
    assert (Hb : best = Rank64.candidate 0.35 (Some 2.0%float)).
    { vm_compute in Hbest. injection Hbest as <-. reflexivity. }
    subst best. split.
    + vm_compute. reflexivity.
    + apply Hmin. left. reflexivity.
Defined.

(** * Further properties of the code *)

(** ** Language detection and answer selection *)

(** X1: [detectLanguage] only ever answers [id] or [en], and [en] exactly when
    detection is switched on and the detector's best guess is English,
    whatever its capitalisation. *)
Theorem detectLanguage_id_or_en
    (ext : KB.Externals) (chatbotConfig : KB.Config) (text : string) :
  (Bot.detectLanguage ext chatbotConfig text = "id" \/
   Bot.detectLanguage ext chatbotConfig text = "en") /\
  (Bot.detectLanguage ext chatbotConfig text = "en" <->
   KB.autoDetectLanguage (KB.settings chatbotConfig) = Some "true" /\
   exists name rest, KB.languageDetect ext text = name :: rest /\
                     Str.toLowerCase name = "english").
Proof.
  unfold Bot.detectLanguage, Bot.opt_string_eqb.
  destruct (KB.autoDetectLanguage (KB.settings chatbotConfig)) as [a|]; simpl.
  - destruct (String.eqb a "true") eqn:Ea; simpl.
    + apply String.eqb_eq in Ea. subst a.
      destruct (KB.languageDetect ext text) as [|name rest].
      * split; [left; reflexivity|]. split; [discriminate|].
        intros (_ & n & r & H & _). discriminate.
      * destruct (String.eqb (Str.toLowerCase name) "indonesian") eqn:Ei.
        { apply String.eqb_eq in Ei. split; [left; reflexivity|].
          split; [discriminate|].
          intros (_ & n & r & H & Hn). injection H as <- <-.
          rewrite Ei in Hn. discriminate. }
        destruct (String.eqb (Str.toLowerCase name) "english") eqn:Ee.
        { apply String.eqb_eq in Ee. split; [right; reflexivity|].
          split; [|reflexivity]. intros _. split; [reflexivity|].
          exists name, rest. split; [reflexivity | exact Ee]. }
        apply String.eqb_neq in Ee. split; [left; reflexivity|].
        split; [discriminate|].
        intros (_ & n & r & H & Hn). injection H as <- <-. contradiction.
    + apply String.eqb_neq in Ea. split; [left; reflexivity|].
      split; [discriminate|]. intros (H & _). congruence.
  - split; [left; reflexivity|]. split; [discriminate|].
    intros (H & _). discriminate.
Qed.

(** X2: with [Math.random()] in the interval from 0 (included) to 1 (excluded)
    and at least one answer, [getRandomAnswer] never reads outside the
    array: it returns one of the item's answers. *)
Theorem getRandomAnswer_picks_an_answer (ext : KB.Externals) (it : KB.Item) :
  (0 <= KB.mathRandom ext)%Q -> (KB.mathRandom ext < 1)%Q ->
  KB.to_list (KB.answers_a it) <> [] ->
  exists answer,
    Bot.getRandomAnswer ext it = Some answer /\
    In answer (KB.to_list (KB.answers_a it)).
Proof.
  intros H0 H1 Hne. unfold Bot.getRandomAnswer.
  destruct (KB.answers_a it) as [a | answers]; cbn [KB.to_list] in *.
  - exists a. split; [reflexivity | left; reflexivity].
  - assert (Hlen : (0 < List.length answers)%nat).
    { destruct answers; [contradiction | simpl; lia]. }
    destruct (random_index_in_range _ _ H0 H1 Hlen) as [Hlo Hhi].
    cbv zeta.
    set (idx := Qfloor (KB.mathRandom ext *
                        inject_Z (Z.of_nat (List.length answers)))) in *.
    destruct (Z.ltb_spec idx 0); [lia|].
    destruct (nth_error answers (Z.to_nat idx)) as [a|] eqn:E.
    + exists a. split; [reflexivity|]. exact (nth_error_In _ _ E).
    + apply nth_error_None in E. lia.
Qed.

Lemma getRandomAnswer_picks_an_answer_witness :
  exists answer,
    Bot.getRandomAnswer (Sample.sampleExternals KB.ApiRejected) Sample.weatherItem
    = Some answer /\
    In answer ["Cuaca di {city} cerah"].
Proof.
  apply (getRandomAnswer_picks_an_answer
           (Sample.sampleExternals KB.ApiRejected) Sample.weatherItem).
  - discriminate.
  - reflexivity.
  - discriminate.
Defined.

(** ** Sessions across a request *)

Section Sessions.

Import Num Str KB Bot Probe.

Variable ext : Externals.
Variable chatbotConfig : Config.

Lemma answerLocally_outcome (session : Session) (lang_ userInput : string)
    (foundEntities : list (string * string)) (r : SearchResult Item)
    (resp : option Response) (session' : Session) :
  answerLocally ext session lang_ userInput foundEntities r = Some (resp, session') ->
  exists b answer,
    resp = Some (json b) /\
    session' = push session userInput answer (nextContext (item r)) /\
    field "answer" b = Some answer /\
    field "source" b = Some (VStr "local_qa") /\
    field "context" b = Some (context_value (nextContext (item r))) /\
    field "language" b = Some (VStr lang_).
Proof.
  unfold answerLocally. destruct (getRandomAnswer ext (item r)) as [a|]; [|discriminate].
  intros H. injection H as <- <-.
  eexists. eexists. repeat split.
Qed.

Lemma fallbackChain_outcome (session : Session) (lang_ userInput : string)
    (resp : option Response) (session' : Session) :
  fallbackChain ext chatbotConfig session lang_ userInput = Some (resp, session') ->
  (resp = None /\ session' = session) \/
  exists b answer source,
    resp = Some (json b) /\
    session' = push session userInput answer None /\
    field "answer" b = Some answer /\
    field "source" b = Some (VStr source) /\
    (source = "api_fallback" \/ source = "local_fallback") /\
    field "context" b = Some VNull /\
    field "language" b = Some (VStr lang_).
Proof.
  unfold fallbackChain.
  destruct (apiFallbackStep ext chatbotConfig session lang_ userInput)
    as [[r s]|] eqn:Eapi.
  - intros H. injection H as <- <-. right.
    unfold apiFallbackStep in Eapi.
    destruct (apiFallback (settings chatbotConfig)) as [fb|]; [|discriminate].
    destruct (url fb) as [u|]; [|discriminate].
    destruct (String.eqb u ""); [discriminate|].
    destruct (axiosGet ext u userInput) as [| |answer]; try discriminate.
    injection Eapi as <- <-.
    eexists. eexists. exists "api_fallback". repeat split. left. reflexivity.
  - unfold staticFallbackStep.
    destruct (List.find _ (qaItems chatbotConfig)) as [fb|].
    + destruct (getRandomAnswer ext fb) as [a|]; [|discriminate].
      intros H. injection H as <- <-. right.
      eexists. eexists. exists "local_fallback". repeat split. right. reflexivity.
    + intros H. injection H as <- <-. left. split; reflexivity.
Qed.

(** Whatever the pipeline does without throwing, it either answers, with
    the session updated accordingly, or says nothing and leaves the session
    alone. *)
Lemma pipeline_outcome (session : Session) (userInput : string)
    (resp : option Response) (session' : Session) :
  pipeline ext chatbotConfig session userInput = Some (resp, session') ->
  (resp = None /\ session' = session) \/
  exists r, resp = Some r /\ answered ext chatbotConfig session userInput r session'.
Proof.
  unfold pipeline.
  destruct (natural ext _) as [tokenize|]; [|discriminate].
  cbv zeta.
  assert (Hfb : fallbackChain ext chatbotConfig session
                  (detectLanguage ext chatbotConfig userInput) userInput
                = Some (resp, session') ->
                (resp = None /\ session' = session) \/
                exists r, resp = Some r /\
                          answered ext chatbotConfig session userInput r session').
  { intros H. apply fallbackChain_outcome in H.
    destruct H as [H | (b & answer & source & -> & -> & Ha & Hs & Hsrc & Hc & Hl)];
      [left; exact H | right].
    eexists. split; [reflexivity|]. exists answer, source.
    repeat split; try assumption.
    destruct Hsrc as [-> | ->]; simpl; auto. }
  destruct (findBestMatch _ _ _ _ _) as [r|]; [|exact Hfb].
  destruct (accepted chatbotConfig (Some r)); [|exact Hfb].
  intros H. apply answerLocally_outcome in H.
  destruct H as (b & answer & -> & -> & Ha & Hs & Hc & Hl). right.
  eexists. split; [reflexivity|]. exists answer, "local_qa".
  repeat split; try assumption.
  - left. reflexivity.
  - intros Hne. contradiction.
Qed.

Lemma memory_after_creation (mem : gmap string Session) (sid : string) :
  match mem !! sid with
  | Some _ => mem
  | None => <[sid := newSession]> mem
  end !! sid = Some (sessionOf mem sid).
Proof.
  unfold sessionOf. destruct (mem !! sid) as [s|] eqn:E.
  - rewrite E. reflexivity.
  - rewrite lookup_insert_eq. reflexivity.
Qed.

(** The handler on a valid request, by the three ways its pipeline can end. *)
Lemma chat_valid_outcome (mem : gmap string Session) (req : Request)
    (userInput sid : string) :
  validRequest req userInput sid ->
  exists session',
    snd (chat ext chatbotConfig mem req) !! sid = Some session' /\
    ((fst (chat ext chatbotConfig mem req) = None /\ session' = sessionOf mem sid) \/
     (fst (chat ext chatbotConfig mem req) = Some serverError /\
      session' = sessionOf mem sid /\
      pipeline ext chatbotConfig (sessionOf mem sid) userInput = None) \/
     (exists resp,
         fst (chat ext chatbotConfig mem req) = Some resp /\
         answered ext chatbotConfig (sessionOf mem sid) userInput resp session')).
Proof.
  intros (Hq & Hs & Hqne & Hsne).
  unfold chat. rewrite Hq, Hs.
  apply String.eqb_neq in Hqne, Hsne. rewrite Hqne, Hsne. simpl orb. cbv iota.
  rewrite session_after_creation.
  destruct (pipeline ext chatbotConfig (sessionOf mem sid) userInput)
    as [[resp s']|] eqn:Ep.
  - exists s'. simpl. split; [apply lookup_insert_eq|].
    destruct (pipeline_outcome _ _ _ _ Ep) as [[-> ->] | (r & -> & Hans)].
    + left. split; reflexivity.
    + right. right. exists r. split; [reflexivity | exact Hans].
  - exists (sessionOf mem sid). simpl. split; [apply memory_after_creation|].
    right. left. repeat split.
Qed.

Lemma chat_missing_parameter_status (mem : gmap string Session) (req : Request) :
  str_truthy (query_q req) = false \/ str_truthy (query_sessionId req) = false ->
  fst (chat ext chatbotConfig mem req) = Some badRequest.
Proof.
  intros H. unfold chat, str_truthy in *.
  destruct (query_q req) as [q|], (query_sessionId req) as [sid|];
    try reflexivity.
  destruct H as [H|H]; apply negb_false_iff in H; rewrite H;
    [reflexivity | rewrite orb_true_r; reflexivity].
Qed.

End Sessions.

(** X3: a request whose session id is not a name found in [Object.prototype]
    never touches the session of another id: whatever the handler does,
    every session stored in the conversation memory under an id other than
    the request's is as before. *)
Theorem chat_other_sessions_untouched
    (ext : KB.Externals) (chatbotConfig : KB.Config)
    (mem : gmap string KB.Session) (req : KB.Request) (other : string) :
  match KB.query_sessionId req with
  | Some sid => Ids.inheritedName sid
  | None => false
  end = false ->
  KB.query_sessionId req <> Some other ->
  snd (Bot.chat ext chatbotConfig mem req) !! other = mem !! other.
Proof.
  intros _ Hother. unfold Bot.chat.
  destruct (KB.query_q req) as [q|]; [|reflexivity].
  destruct (KB.query_sessionId req) as [sid|]; [|reflexivity].
  destruct (String.eqb q "" || String.eqb sid ""); [reflexivity|].
  assert (Hne : sid <> other) by congruence.
  assert (Hcreated : match mem !! sid with
                     | Some _ => mem
                     | None => <[sid := Bot.newSession]> mem
                     end !! other = mem !! other).
  { destruct (mem !! sid); [reflexivity | apply lookup_insert_ne; exact Hne]. }
  destruct (Bot.pipeline _ _ _ _) as [[resp s']|]; simpl.
  - rewrite lookup_insert_ne by exact Hne. exact Hcreated.
  - exact Hcreated.
Qed.

Lemma chat_other_sessions_untouched_witness :
  snd (Bot.chat (Sample.sampleExternals KB.ApiRejected)
         (Sample.sampleConfig None [Sample.weatherItem; Sample.fallbackItem])
         {[ "s1" := Sample.inFollowup ]} (Sample.request "cuaca" "s2"))
  !! "s1" = Some Sample.inFollowup.
Proof.
  rewrite (chat_other_sessions_untouched
             (Sample.sampleExternals KB.ApiRejected)
             (Sample.sampleConfig None [Sample.weatherItem; Sample.fallbackItem])
             {[ "s1" := Sample.inFollowup ]} (Sample.request "cuaca" "s2") "s1").
  - vm_compute. reflexivity.
  - reflexivity.
  - discriminate.
Defined.

(** X4: a valid request whose session id is not a name found in
    [Object.prototype] always leaves a session under its id, created on first
    contact.  Either the request is answered with status 200, and then the
    session has exactly one more history entry, made of the utterance and
    the answer of the response, the response's context is the session's new
    context, and a fallback answer has cleared it; or nothing is answered
    (no response, or the server error) and the session is as it was. *)
Theorem chat_answers_or_leaves_session
    (ext : KB.Externals) (chatbotConfig : KB.Config)
    (mem : gmap string KB.Session) (req : KB.Request) (userInput sid : string) :
  Bot.validRequest req userInput sid ->
  Ids.inheritedName sid = false ->
  exists session',
    snd (Bot.chat ext chatbotConfig mem req) !! sid = Some session' /\
    (((fst (Bot.chat ext chatbotConfig mem req) = None \/
       fst (Bot.chat ext chatbotConfig mem req) = Some Bot.serverError) /\
      session' = Bot.sessionOf mem sid) \/
     (exists resp,
         fst (Bot.chat ext chatbotConfig mem req) = Some resp /\
         Probe.answered ext chatbotConfig (Bot.sessionOf mem sid) userInput
           resp session')).
Proof.
  intros Hvalid _.
  destruct (chat_valid_outcome ext chatbotConfig mem req userInput sid Hvalid)
    as (s' & Hmem & [[Hnone ->] | [(Herr & -> & _) | Hans]]).
  - eexists. split; [exact Hmem|]. left. split; [left; exact Hnone | reflexivity].
  - eexists. split; [exact Hmem|]. left. split; [right; exact Herr | reflexivity].
  - exists s'. split; [exact Hmem|]. right. exact Hans.
Qed.

Lemma chat_answers_or_leaves_session_witness :
  exists session',
    snd (Bot.chat (Sample.sampleExternals KB.ApiRejected)
           (Sample.sampleConfig None [Sample.weatherItem; Sample.fallbackItem])
           ∅ (Sample.request "cuaca" "s1")) !! "s1" = Some session' /\
    KB.history session' =
    [{| KB.user := "cuaca"; KB.bot := KB.VStr "Cuaca di {city} cerah" |}].
Proof.
  destruct (chat_answers_or_leaves_session
              (Sample.sampleExternals KB.ApiRejected)
              (Sample.sampleConfig None [Sample.weatherItem; Sample.fallbackItem])
              ∅ (Sample.request "cuaca" "s1") "cuaca" "s1")
    as (s' & Hmem & _).
  - unfold Bot.validRequest. repeat split; (reflexivity || discriminate).
  - reflexivity.
  - exists s'. split; [exact Hmem|].
    vm_compute in Hmem. injection Hmem as <-. reflexivity.
Defined.

(** X5: the handler only ever sends status 200, 400 or 500, and 400 exactly
    when the utterance or the session id is missing or empty. *)
Theorem chat_status_codes
    (ext : KB.Externals) (chatbotConfig : KB.Config)
    (mem : gmap string KB.Session) (req : KB.Request) (resp : KB.Response) :
  fst (Bot.chat ext chatbotConfig mem req) = Some resp ->
  (KB.status resp = 200 \/ KB.status resp = 400 \/ KB.status resp = 500) /\
  (KB.status resp = 400 <->
   KB.str_truthy (KB.query_q req) = false \/
   KB.str_truthy (KB.query_sessionId req) = false).
Proof.
  intros Hresp.
  destruct (KB.str_truthy (KB.query_q req)) eqn:Eq;
    [destruct (KB.str_truthy (KB.query_sessionId req)) eqn:Es|].
  - assert (Hvalid : exists u sid, Bot.validRequest req u sid).
    { unfold KB.str_truthy in Eq, Es.
      destruct (KB.query_q req) as [u|] eqn:Hu; [|discriminate].
      destruct (KB.query_sessionId req) as [sid|] eqn:Hsid; [|discriminate].
      exists u, sid. unfold Bot.validRequest. rewrite Hu, Hsid.
      apply negb_true_iff in Eq, Es. apply String.eqb_neq in Eq, Es. auto. }
    destruct Hvalid as (u & sid & Hvalid).
    destruct (chat_valid_outcome ext chatbotConfig mem req u sid Hvalid)
      as (s' & _ & [[Hnone _] | [(Herr & _) | (r & Hr & Hans)]]).
    + congruence.
    + rewrite Herr in Hresp. injection Hresp as <-. split.
      * right. right. reflexivity.
      * split; [discriminate | intros [H|H]; discriminate].
    + rewrite Hr in Hresp. injection Hresp as <-.
      destruct Hans as (a & src & Hst & _). split.
      * left. exact Hst.
      * rewrite Hst. split; [discriminate | intros [H|H]; discriminate].
  - pose proof (chat_missing_parameter_status ext chatbotConfig mem req
                  (or_intror Es)) as Hbad.
    rewrite Hbad in Hresp. injection Hresp as <-. split.
    + right. left. reflexivity.
    + split; [intros _; right; reflexivity | reflexivity].
  - pose proof (chat_missing_parameter_status ext chatbotConfig mem req
                  (or_introl Eq)) as Hbad.
    rewrite Hbad in Hresp. injection Hresp as <-. split.
    + right. left. reflexivity.
    + split; [intros _; left; reflexivity | reflexivity].
Qed.

Lemma chat_status_codes_witness :
  (KB.status Bot.badRequest = 200 \/ KB.status Bot.badRequest = 400 \/
   KB.status Bot.badRequest = 500) /\
  (KB.status Bot.badRequest = 400 <->
   KB.str_truthy (Some "cuaca") = false \/ KB.str_truthy None = false).
Proof.
  apply (chat_status_codes
           (Sample.sampleExternals KB.ApiRejected)
           (Sample.sampleConfig None [Sample.weatherItem; Sample.fallbackItem])
           ∅ {| KB.query_q := Some "cuaca"; KB.query_sessionId := None |}
           Bot.badRequest).
  reflexivity.
Defined.

Section Throws.

Import Num Str KB Bot Probe.

Variable ext : Externals.
Variable chatbotConfig : Config.

Lemma pipeline_no_tokenizer (session : Session) (userInput : string) :
  tokenizerOf ext chatbotConfig = None ->
  pipeline ext chatbotConfig session userInput = None.
Proof. unfold tokenizerOf, pipeline. intros ->. reflexivity. Qed.

Lemma getRandomAnswer_empty (it : Item) :
  answers_a it = Many [] -> getRandomAnswer ext it = None.
Proof.
  intros H. unfold getRandomAnswer. rewrite H. cbv zeta.
  destruct (_ <? 0)%Z; [reflexivity|].
  destruct (Z.to_nat _); reflexivity.
Qed.

Lemma chat_throw (mem : gmap string Session) (req : Request) (userInput sid : string) :
  validRequest req userInput sid ->
  pipeline ext chatbotConfig (sessionOf mem sid) userInput = None ->
  fst (chat ext chatbotConfig mem req) = Some serverError /\
  snd (chat ext chatbotConfig mem req) !! sid = Some (sessionOf mem sid).
Proof.
  intros (Hq & Hs & Hqne & Hsne) Hp.
  unfold chat. rewrite Hq, Hs.
  apply String.eqb_neq in Hqne, Hsne. rewrite Hqne, Hsne. simpl orb. cbv iota.
  rewrite session_after_creation, Hp. simpl.
  split; [reflexivity | apply memory_after_creation].
Qed.

End Throws.

(** X6: a failure inside the pipeline is answered with status 500 and leaves the
    session as it was (freshly created if the id was new): this is what
    happens when the tokenizer named in the settings cannot be constructed,
    and when the accepted item has an empty array of answers.  The session
    id is not a name found in [Object.prototype]. *)
Theorem chat_throw_is_server_error
    (ext : KB.Externals) (chatbotConfig : KB.Config)
    (mem : gmap string KB.Session) (req : KB.Request) (userInput sid : string) :
  Bot.validRequest req userInput sid ->
  Ids.inheritedName sid = false ->
  Bot.tokenizerOf ext chatbotConfig = None \/
  (exists tokenize r,
      Bot.tokenizerOf ext chatbotConfig = Some tokenize /\
      Bot.findBestMatch ext chatbotConfig (Bot.sessionOf mem sid)
        (Bot.detectLanguage ext chatbotConfig userInput) userInput = Some r /\
      Num.ltb (KB.score r) (Bot.effectiveThreshold chatbotConfig r) = true /\
      KB.answers_a (KB.item r) = KB.Many []) ->
  fst (Bot.chat ext chatbotConfig mem req) = Some Bot.serverError /\
  KB.status Bot.serverError = 500 /\
  snd (Bot.chat ext chatbotConfig mem req) !! sid = Some (Bot.sessionOf mem sid).
Proof.
  intros Hvalid _ Hcause.
  assert (Hp : Bot.pipeline ext chatbotConfig (Bot.sessionOf mem sid) userInput = None).
  { destruct Hcause as [Htok | (tokenize & r & Htok & Hbest & Hlt & Hans)].
    - apply pipeline_no_tokenizer. exact Htok.
    - rewrite (pipeline_accepted _ _ _ _ _ _ Htok Hbest Hlt).
      unfold Bot.answerLocally. rewrite (getRandomAnswer_empty ext _ Hans).
      reflexivity. }
  destruct (chat_throw ext chatbotConfig mem req userInput sid Hvalid Hp)
    as [Hresp Hmem].
  split; [exact Hresp|]. split; [reflexivity | exact Hmem].
Qed.

Lemma chat_throw_is_server_error_witness :
  fst (Bot.chat (Sample.sampleExternals KB.ApiRejected)
         {| KB.settings := {| KB.defaultThreshold := Some (Num.Fin 0.4);
                              KB.autoDetectLanguage := None;
                              KB.tokenizer := Some "CaseTokenizer";
                              KB.apiFallback := None |};
            KB.intents := []; KB.entities := [];
            KB.qaItems := [Sample.fallbackItem]; KB.contexts := [] |}
         ∅ (Sample.request "cuaca" "s1")) = Some Bot.serverError.
Proof.
  apply (chat_throw_is_server_error (Sample.sampleExternals KB.ApiRejected)
           {| KB.settings := {| KB.defaultThreshold := Some (Num.Fin 0.4);
                                KB.autoDetectLanguage := None;
                                KB.tokenizer := Some "CaseTokenizer";
                                KB.apiFallback := None |};
              KB.intents := []; KB.entities := [];
              KB.qaItems := [Sample.fallbackItem]; KB.contexts := [] |}
           ∅ (Sample.request "cuaca" "s1") "cuaca" "s1").
  - unfold Bot.validRequest. repeat split; (reflexivity || discriminate).
  - reflexivity.
  - left. reflexivity.
Defined.

(** ** When the external service is consulted *)

Section External.

Import Num Str KB Bot Probe.

Variable ext : Externals.
Variable chatbotConfig : Config.
Variable g : string -> string -> ApiOutcome.

Lemma findBestMatch_any_axios (session : Session) (lang_ userInput : string) :
  findBestMatch (withAxiosGet ext g) chatbotConfig session lang_ userInput =
  findBestMatch ext chatbotConfig session lang_ userInput.
Proof. reflexivity. Qed.

Lemma staticFallbackStep_any_axios (session : Session) (lang_ userInput : string) :
  staticFallbackStep (withAxiosGet ext g) chatbotConfig session lang_ userInput =
  staticFallbackStep ext chatbotConfig session lang_ userInput.
Proof. reflexivity. Qed.

Lemma apiFallbackStep_unconfigured (e : Externals) (session : Session)
    (lang_ userInput : string) :
  apiConfigured chatbotConfig = false ->
  apiFallbackStep e chatbotConfig session lang_ userInput = None.
Proof.
  unfold apiConfigured, apiFallbackStep, str_truthy.
  destruct (apiFallback (settings chatbotConfig)) as [fb|]; [|reflexivity].
  destruct (url fb) as [u|]; [|reflexivity].
  intros H. apply negb_false_iff in H. rewrite H. reflexivity.
Qed.

Lemma pipeline_any_axios (session : Session) (userInput : string) :
  accepted chatbotConfig
    (findBestMatch ext chatbotConfig session
       (detectLanguage ext chatbotConfig userInput) userInput) = true \/
  apiConfigured chatbotConfig = false ->
  pipeline (withAxiosGet ext g) chatbotConfig session userInput =
  pipeline ext chatbotConfig session userInput.
Proof.
  intros H. unfold pipeline.
  change (natural (withAxiosGet ext g)) with (natural ext).
  destruct (natural ext _) as [tokenize|]; [|reflexivity].
  cbv zeta.
  change (detectLanguage (withAxiosGet ext g) chatbotConfig userInput)
    with (detectLanguage ext chatbotConfig userInput).
  rewrite findBestMatch_any_axios.
  destruct (findBestMatch ext chatbotConfig session _ userInput) as [r|] eqn:Eb.
  - destruct (accepted chatbotConfig (Some r)) eqn:Ea; [reflexivity|].
    destruct H as [H|H]; [congruence|].
    unfold fallbackChain.
    rewrite !(apiFallbackStep_unconfigured _ _ _ _ H). reflexivity.
  - destruct H as [H|H]; [simpl in H; discriminate|].
    unfold fallbackChain.
    rewrite !(apiFallbackStep_unconfigured _ _ _ _ H). reflexivity.
Qed.

End External.

(** X7: the external service plays no part in a request whose local match is
    accepted, nor in any request when no endpoint URL is configured:
    response and memory are the same whatever the HTTP client would have
    returned. *)
Theorem external_call_only_as_fallback
    (ext : KB.Externals) (chatbotConfig : KB.Config)
    (mem : gmap string KB.Session) (req : KB.Request) (userInput sid : string)
    (g : string -> string -> KB.ApiOutcome) :
  KB.query_q req = Some userInput ->
  KB.query_sessionId req = Some sid ->
  Bot.accepted chatbotConfig
    (Bot.findBestMatch ext chatbotConfig (Bot.sessionOf mem sid)
       (Bot.detectLanguage ext chatbotConfig userInput) userInput) = true \/
  Probe.apiConfigured chatbotConfig = false ->
  Bot.chat (Probe.withAxiosGet ext g) chatbotConfig mem req =
  Bot.chat ext chatbotConfig mem req.
Proof.
  intros Hq Hs H. unfold Bot.chat. rewrite Hq, Hs.
  destruct (String.eqb userInput "" || String.eqb sid ""); [reflexivity|].
  rewrite session_after_creation.
  rewrite (pipeline_any_axios ext chatbotConfig g _ _ H). reflexivity.
Qed.

Lemma external_call_only_as_fallback_witness :
  Bot.chat (Probe.withAxiosGet (Sample.sampleExternals KB.ApiRejected)
              (fun _ _ => KB.ApiBody (KB.VStr "dari luar")))
    (Sample.sampleConfig Sample.someApi [Sample.weatherItem; Sample.fallbackItem])
    ∅ (Sample.request "cuaca" "s1") =
  Bot.chat (Sample.sampleExternals KB.ApiRejected)
    (Sample.sampleConfig Sample.someApi [Sample.weatherItem; Sample.fallbackItem])
    ∅ (Sample.request "cuaca" "s1").
Proof.
  apply (external_call_only_as_fallback
           (Sample.sampleExternals KB.ApiRejected)
           (Sample.sampleConfig Sample.someApi [Sample.weatherItem; Sample.fallbackItem])
           ∅ (Sample.request "cuaca" "s1") "cuaca" "s1").
  - reflexivity.
  - reflexivity.
  - left. vm_compute. reflexivity.
Defined.

(** ** Contexts across turns *)

Section Contexts.

Import Num Str KB Bot Probe.

Variable ext : Externals.
Variable chatbotConfig : Config.

Lemma contextSearch_unresolved (session : Session) (userInput cid : string) :
  context session = Some cid ->
  List.find (fun c => String.eqb cid (context_id c)) (contexts chatbotConfig) = None ->
  contextSearch ext chatbotConfig session userInput = None.
Proof.
  intros Hctx Hfind. unfold contextSearch. rewrite Hctx.
  destruct (str_truthy (Some cid)); [|reflexivity].
  simpl. rewrite Hfind. reflexivity.
Qed.

Lemma contextSearch_no_context (session : Session) (userInput : string) :
  context session = None ->
  contextSearch ext chatbotConfig session userInput = None.
Proof. intros Hctx. unfold contextSearch. rewrite Hctx. reflexivity. Qed.

(** Without a contextual match the response does not depend on the session. *)
Lemma pipeline_response_session_free (s1 s2 : Session) (userInput : string) :
  contextSearch ext chatbotConfig s1 userInput = None ->
  contextSearch ext chatbotConfig s2 userInput = None ->
  option_map fst (pipeline ext chatbotConfig s1 userInput) =
  option_map fst (pipeline ext chatbotConfig s2 userInput).
Proof.
  intros H1 H2. unfold pipeline, findBestMatch. rewrite H1, H2.
  destruct (natural ext _) as [tokenize|]; [|reflexivity].
  cbv zeta.
  assert (Hfb : forall lang_,
             option_map fst (fallbackChain ext chatbotConfig s1 lang_ userInput) =
             option_map fst (fallbackChain ext chatbotConfig s2 lang_ userInput)).
  { intros lang_. unfold fallbackChain, apiFallbackStep, staticFallbackStep.
    destruct (apiFallback (settings chatbotConfig)) as [fb|].
    - destruct (url fb) as [u|].
      + destruct (String.eqb u "").
        * destruct (List.find _ _) as [it|]; [|reflexivity].
          destruct (getRandomAnswer ext it); reflexivity.
        * destruct (axiosGet ext u userInput); try reflexivity;
            (destruct (List.find _ _) as [it|]; [|reflexivity];
             destruct (getRandomAnswer ext it); reflexivity).
      + destruct (List.find _ _) as [it|]; [|reflexivity].
        destruct (getRandomAnswer ext it); reflexivity.
    - destruct (List.find _ _) as [it|]; [|reflexivity].
      destruct (getRandomAnswer ext it); reflexivity. }
  destruct (generalSearch ext chatbotConfig _ userInput) as [r|]; [|apply Hfb].
  destruct (accepted chatbotConfig (Some r)); [|apply Hfb].
  unfold answerLocally. destruct (getRandomAnswer ext (item r)); reflexivity.
Qed.

End Contexts.

(** X8: an active context id that matches no context of the knowledge base is
    not an error: the contextual search finds nothing, the best match is
    the one of the general search, and the response is the one the same
    utterance gets in a session without context. *)
Theorem unresolved_context_is_no_context
    (ext : KB.Externals) (chatbotConfig : KB.Config) (session : KB.Session)
    (userInput cid : string) :
  KB.context session = Some cid ->
  List.find (fun c => String.eqb cid (KB.context_id c)) (KB.contexts chatbotConfig)
  = None ->
  (forall lang_,
      Bot.findBestMatch ext chatbotConfig session lang_ userInput =
      Bot.generalSearch ext chatbotConfig lang_ userInput) /\
  option_map fst (Bot.pipeline ext chatbotConfig session userInput) =
  option_map fst (Bot.pipeline ext chatbotConfig (Probe.withoutContext session) userInput).
Proof.
  intros Hctx Hfind.
  pose proof (contextSearch_unresolved ext chatbotConfig session userInput cid
                Hctx Hfind) as Hnone.
  split.
  - intros lang_. unfold Bot.findBestMatch. rewrite Hnone. reflexivity.
  - apply pipeline_response_session_free; [exact Hnone|].
    apply contextSearch_no_context. reflexivity.
Qed.

Lemma unresolved_context_is_no_context_witness :
  option_map fst
    (Bot.pipeline (Sample.sampleExternals KB.ApiRejected)
       (Sample.sampleConfig None [Sample.weatherItem; Sample.fallbackItem])
       {| KB.history := []; KB.context := Some "gone" |} "cuaca") =
  option_map fst
    (Bot.pipeline (Sample.sampleExternals KB.ApiRejected)
       (Sample.sampleConfig None [Sample.weatherItem; Sample.fallbackItem])
       {| KB.history := []; KB.context := None |} "cuaca").
Proof.
  apply (unresolved_context_is_no_context
           (Sample.sampleExternals KB.ApiRejected)
           (Sample.sampleConfig None [Sample.weatherItem; Sample.fallbackItem])
           {| KB.history := []; KB.context := Some "gone" |} "cuaca" "gone").
  - reflexivity.
  - reflexivity.
Defined.

(** X9: two turns compose: after a turn answered from an item that names a next
    context, the session of that id is in that context, so on the next turn
    the top result of the search over that context's items is the best
    match before any general search.  The session id is not a name found in
    [Object.prototype], [Math.random()] is in its range and the item of the
    first turn has answers. *)
Theorem next_turn_searches_new_context
    (ext : KB.Externals) (chatbotConfig : KB.Config)
    (mem : gmap string KB.Session) (req : KB.Request)
    (userInput sid c nextInput : string) (tokenize : string -> list string)
    (r r2 : KB.SearchResult KB.Item) (rest : list (KB.SearchResult KB.Item))
    (contextData : KB.Context) (items : KB.OneOrMany KB.Item) :
  Bot.validRequest req userInput sid ->
  Ids.inheritedName sid = false ->
  Bot.tokenizerOf ext chatbotConfig = Some tokenize ->
  Bot.findBestMatch ext chatbotConfig (Bot.sessionOf mem sid)
    (Bot.detectLanguage ext chatbotConfig userInput) userInput = Some r ->
  Num.ltb (KB.score r) (Bot.effectiveThreshold chatbotConfig r) = true ->
  (0 <= KB.mathRandom ext)%Q -> (KB.mathRandom ext < 1)%Q ->
  KB.to_list (KB.answers_a (KB.item r)) <> [] ->
  KB.nextContextId (KB.item r) = Some c -> c <> "" ->
  List.find (fun x => String.eqb c (KB.context_id x)) (KB.contexts chatbotConfig)
  = Some contextData ->
  KB.context_item contextData = Some items ->
  KB.fuseItems ext (Num.Fin 0.5) (KB.to_list items) nextInput = r2 :: rest ->
  KB.context (Bot.sessionOf (snd (Bot.chat ext chatbotConfig mem req)) sid) = Some c /\
  forall lang_,
    Bot.findBestMatch ext chatbotConfig
      (Bot.sessionOf (snd (Bot.chat ext chatbotConfig mem req)) sid)
      lang_ nextInput = Some r2.
Proof.
  intros Hvalid _ Htok Hbest Hlt H0 H1 Hans Hnext Hne Hfind Hitems Hsearch.
  destruct (chat_local_outcome ext chatbotConfig mem req userInput sid
              tokenize r Hvalid Htok Hbest Hlt H0 H1 Hans) as (answer & _ & Hmem).
  assert (Hctx : KB.context
                   (Bot.sessionOf (snd (Bot.chat ext chatbotConfig mem req)) sid)
                 = Some c).
  { unfold Bot.sessionOf. rewrite Hmem. simpl.
    unfold Bot.nextContext, KB.str_truthy. rewrite Hnext.
    apply String.eqb_neq in Hne. rewrite Hne. reflexivity. }
  split; [exact Hctx|].
  intros lang_. unfold Bot.findBestMatch.
  rewrite (contextSearch_top ext chatbotConfig _ _ _ _ _ _ _
             Hctx Hne Hfind Hitems Hsearch).
  reflexivity.
Qed.

Lemma next_turn_searches_new_context_witness :
  Bot.findBestMatch (Sample.sampleExternals KB.ApiRejected)
    (Sample.sampleConfig None [Sample.weatherItem; Sample.fallbackItem])
    (Bot.sessionOf
       (snd (Bot.chat (Sample.sampleExternals KB.ApiRejected)
               (Sample.sampleConfig None [Sample.weatherItem; Sample.fallbackItem])
               ∅ (Sample.request "cuaca" "s1"))) "s1")
    "id" "besok"
  = Some {| KB.item := Sample.followupItem; KB.score := Num.Fin 0 |}.
Proof.
  destruct (next_turn_searches_new_context
              (Sample.sampleExternals KB.ApiRejected)
              (Sample.sampleConfig None [Sample.weatherItem; Sample.fallbackItem])
              ∅ (Sample.request "cuaca" "s1")
              "cuaca" "s1" "followup" "besok" Sample.words
              {| KB.item := Sample.weatherItem; KB.score := Num.Fin 0 |}
              {| KB.item := Sample.followupItem; KB.score := Num.Fin 0 |} []
              {| KB.context_id := "followup";
                 KB.context_item := Some (KB.One Sample.followupItem) |}
              (KB.One Sample.followupItem))
    as [_ Hnext].
  - unfold Bot.validRequest. repeat split; (reflexivity || discriminate).
  - reflexivity.
  - reflexivity.
  - vm_compute. reflexivity.
  - reflexivity.
  - discriminate.
  - reflexivity.
  - discriminate.
  - reflexivity.
  - discriminate.
  - reflexivity.
  - reflexivity.
  - vm_compute. reflexivity.
  - apply Hnext.
Defined.

(** ** Ties in the re-ranking *)

(** X11: among the candidates of the detected intent, equal keys keep the
    order of the search: the chosen candidate is the earliest one that all
    the candidates before it are behind (the comparator is positive) and
    that is behind none of the later ones.  The comparator is consistent on
    the candidates, as [sort] requires. *)
Theorem rerank_ties_keep_search_order
    (detectedIntent : string) (searchResults : list Rank64.SearchResult)
    (pre post : list Rank64.SearchResult) (best : Rank64.SearchResult) :
  List.filter (fun r => String.eqb (Rank64.intent (Rank64.item r)) detectedIntent)
              searchResults = (pre ++ best :: post)%list ->
  Rank64.consistentOn Rank64.compareFn (pre ++ best :: post)%list ->
  (forall p, In p pre -> Rank64.behind Rank64.compareFn p best = true) ->
  (forall q, In q post -> Rank64.behind Rank64.compareFn best q = false) ->
  Rank64.rerank detectedIntent searchResults = Some best.
Proof.
  intros Hrel _ Hpre Hpost.
  rewrite rerank_relevant by (rewrite Hrel; destruct pre; discriminate).
  rewrite Hrel. apply sort_head_first; assumption.
Qed.

Lemma rerank_ties_keep_search_order_witness :
  Rank64.rerank "weather"
    [Rank64.candidate 0.30 None;
     Rank64.candidate 0.05 (Some 1%float);
     Rank64.candidate 0.06 (Some 1.2%float)]
  = Some (Rank64.candidate 0.05 (Some 1%float)).
Proof.
  apply (rerank_ties_keep_search_order "weather"
           [Rank64.candidate 0.30 None;
            Rank64.candidate 0.05 (Some 1%float);
            Rank64.candidate 0.06 (Some 1.2%float)]
           [Rank64.candidate 0.30 None]
           [Rank64.candidate 0.06 (Some 1.2%float)]
           (Rank64.candidate 0.05 (Some 1%float))).
  - reflexivity.
  - split.
    + intros a b [<- | [<- | [<- | []]]] [<- | [<- | [<- | []]]];
        vm_compute; intros; congruence.
    + intros a b c [<- | [<- | [<- | []]]] [<- | [<- | [<- | []]]]
        [<- | [<- | [<- | []]]];
        vm_compute; intros; congruence.
  - intros p [<- | []]. vm_compute. reflexivity.
  - intros q [<- | []]. vm_compute. reflexivity.
Defined.

(** X12: with no default threshold in the settings, the search indices are built
    with 0.4, but the acceptance test has no such default: a best match
    whose item has no threshold of its own is compared with NaN and
    rejected, so the fallback chain answers. *)
Theorem missing_default_threshold_rejects
    (ext : KB.Externals) (chatbotConfig : KB.Config) (session : KB.Session)
    (userInput : string) (tokenize : string -> list string)
    (r : KB.SearchResult KB.Item) :
  Bot.tokenizerOf ext chatbotConfig = Some tokenize ->
  KB.defaultThreshold (KB.settings chatbotConfig) = None ->
  Bot.findBestMatch ext chatbotConfig session
    (Bot.detectLanguage ext chatbotConfig userInput) userInput = Some r ->
  KB.threshold (KB.item r) = None ->
  Bot.indexThreshold chatbotConfig = Num.Fin 0.4 /\
  Bot.pipeline ext chatbotConfig session userInput =
  Bot.fallbackChain ext chatbotConfig session
    (Bot.detectLanguage ext chatbotConfig userInput) userInput.
Proof.
  intros Htok Hdef Hbest Hthr. split.
  - unfold Bot.indexThreshold. rewrite Hdef. reflexivity.
  - apply (pipeline_rejected _ _ _ _ _ Htok). rewrite Hbest.
    unfold Bot.accepted, Bot.effectiveThreshold. rewrite Hdef, Hthr.
    destruct (KB.score r) as [|[|]|q]; reflexivity.
Qed.

Lemma missing_default_threshold_rejects_witness :
  Bot.pipeline (Sample.sampleExternals KB.ApiRejected)
    {| KB.settings := {| KB.defaultThreshold := None;
                         KB.autoDetectLanguage := None;
                         KB.tokenizer := None;
                         KB.apiFallback := None |};
       KB.intents := []; KB.entities := [];
       KB.qaItems := [Sample.weatherItem]; KB.contexts := [] |}
    Bot.newSession "cuaca" = Some (None, Bot.newSession).
Proof.
  destruct (missing_default_threshold_rejects
              (Sample.sampleExternals KB.ApiRejected)
              {| KB.settings := {| KB.defaultThreshold := None;
                                   KB.autoDetectLanguage := None;
                                   KB.tokenizer := None;
                                   KB.apiFallback := None |};
                 KB.intents := []; KB.entities := [];
                 KB.qaItems := [Sample.weatherItem]; KB.contexts := [] |}
              Bot.newSession "cuaca" Sample.words
              {| KB.item := Sample.weatherItem; KB.score := Num.Fin 0 |})
    as [_ Hp].
  - reflexivity.
  - reflexivity.
  - vm_compute. reflexivity.
  - reflexivity.
  - rewrite Hp. reflexivity.
Defined.

(** ** Entities and placeholders, further *)

Section EntitiesMore.

Import Num Str KB Bot.

Lemma get_prop_In (k v : string) (o : list (string * string)) :
  get_prop k o = Some v -> In (k, v) o.
Proof.
  induction o as [|[k' w] o IH]; simpl; [discriminate|].
  destruct (String.eqb k' k) eqn:E.
  - intros H. injection H as <-. apply String.eqb_eq in E. subst k'.
    left. reflexivity.
  - intros H. right. apply IH. exact H.
Qed.

Lemma set_prop_In (k v k' v' : string) (o : list (string * string)) :
  In (k, v) (set_prop k' v' o) -> (k = k' /\ v = v') \/ In (k, v) o.
Proof.
  induction o as [|[k'' w] o IH]; simpl.
  - intros [H | []]. injection H as <- <-. left. split; reflexivity.
  - destruct (String.eqb k'' k') eqn:E; simpl.
    + apply String.eqb_eq in E. subst k''.
      intros [H | H]; [injection H as <- <-; left; split; reflexivity|].
      right. right. exact H.
    + intros [H | H]; [right; left; exact H|].
      destruct (IH H) as [H' | H']; [left; exact H' | right; right; exact H'].
Qed.

Lemma scanTokens_sound (lower : string -> string)
    (Q : string -> string -> Prop) (entity : Entity) (tokens : list string) :
  (forall t, In t tokens -> Recognize.entityMatches lower entity t = true ->
             Q (entity_name entity) t) ->
  forall found,
    (forall k v, In (k, v) found -> Q k v) ->
    forall k v, In (k, v) (Recognize.scanTokens lower entity tokens found) -> Q k v.
Proof.
  unfold Recognize.scanTokens.
  induction tokens as [|t tokens IH]; intros Htok found Hfound.
  - exact Hfound.
  - cbn [fold_left]. apply IH.
    + intros u Hu. apply Htok. right. exact Hu.
    + destruct (Recognize.entityMatches lower entity t) eqn:E; [|exact Hfound].
      intros k v Hin. destruct (set_prop_In _ _ _ _ _ Hin) as [[-> ->] | H].
      * apply Htok; [left; reflexivity | exact E].
      * apply Hfound. exact H.
Qed.

Lemma scans_sound (lower : string -> string)
    (Q : string -> string -> Prop) (tokens : list string) (es : list Entity) :
  (forall e t, In e es -> In t tokens ->
               Recognize.entityMatches lower e t = true ->
               Q (entity_name e) t) ->
  forall found,
    (forall k v, In (k, v) found -> Q k v) ->
    forall k v,
      In (k, v)
         (fold_left (fun found e => Recognize.scanTokens lower e tokens found)
                    es found) ->
      Q k v.
Proof.
  induction es as [|e es IH]; intros Hes found Hfound.
  - exact Hfound.
  - cbn [fold_left]. apply IH.
    + intros e' t He'. apply Hes. right. exact He'.
    + apply scanTokens_sound; [|exact Hfound].
      intros t Ht Hm. apply Hes; [left; reflexivity | exact Ht | exact Hm].
Qed.

Lemma indexOf_without_first_char (c : ascii) (p s : string) :
  has_char c s = false -> indexOf (String c p) s = None.
Proof.
  induction s as [|d s IH]; intros H.
  - reflexivity.
  - cbn [has_char] in H. apply orb_false_iff in H. destruct H as [Hcd Hs].
    cbn [indexOf String.prefix].
    destruct (ascii_dec c d) as [->|Hne].
    + rewrite Ascii.eqb_refl in Hcd. discriminate.
    + rewrite (IH Hs). reflexivity.
Qed.

End EntitiesMore.

(** X13: whatever [toLowerCase] does to the letters, what
    [recognizeEntities] stores under a name (not one of [Object.prototype])
    is a token of the utterance, and the name is that of an entity of the
    knowledge base that this token matches; nothing else ever appears in
    the result. *)
Theorem recognizeEntities_only_matching_tokens
    (lower : string -> string)
    (chatbotConfig : KB.Config) (tokens : list string) (k v : string) :
  Ids.inheritedName k = false ->
  Bot.get_prop k (Recognize.recognizeEntities lower chatbotConfig tokens) = Some v ->
  In v tokens /\
  exists entity, In entity (KB.entities chatbotConfig) /\
                 KB.entity_name entity = k /\
                 Recognize.entityMatches lower entity v = true.
Proof.
  intros _ Hget. apply get_prop_In in Hget.
  rewrite recognizeEntities_scan in Hget.
  apply (scans_sound lower
           (fun k v => In v tokens /\
                       exists entity, In entity (KB.entities chatbotConfig) /\
                                      KB.entity_name entity = k /\
                                      Recognize.entityMatches lower entity v = true)
           tokens (KB.entities chatbotConfig)) with (found := []).
  - intros e t He Ht Hm. split; [exact Ht|]. exists e. auto.
  - intros k' v' [].
  - exact Hget.
Qed.

Lemma recognizeEntities_only_matching_tokens_witness :
  In "bandung" ["jakarta"; "ke"; "bandung"] /\
  exists entity, In entity (KB.entities (Sample.sampleConfig None [])) /\
                 KB.entity_name entity = "city" /\
                 Recognize.entityMatches Str.toLowerCase entity "bandung" = true.
Proof.
  apply (recognizeEntities_only_matching_tokens Str.toLowerCase
           (Sample.sampleConfig None [])
           ["jakarta"; "ke"; "bandung"] "city" "bandung").
  - reflexivity.
  - reflexivity.
Defined.

(** X14: an answer without an opening brace has no placeholder: it is returned
    unchanged whatever entities were recognised, their values included. *)
Theorem personalizeAnswer_without_braces
    (answer : string) (entities : list (string * string)) :
  Str.has_char "{" answer = false ->
  Bot.personalizeAnswer answer entities = answer.
Proof.
  intros H. apply personalizeAnswer_unmatched.
  intros kv _. unfold Bot.placeholder.
  apply (indexOf_without_first_char "{" (fst kv ++ "}") answer H).
Qed.

Lemma personalizeAnswer_without_braces_witness :
  Bot.personalizeAnswer "Maaf, saya tidak mengerti." [("city", "$& jakarta")]
  = "Maaf, saya tidak mengerti.".
Proof.
  apply (personalizeAnswer_without_braces "Maaf, saya tidak mengerti."
           [("city", "$& jakarta")]).
  reflexivity.
Defined.

(** ** The loader's clean-up *)

Section Cleaning.

Import Xml.

Lemma cleanXmlObject_object (f : list (string * jv)) :
  cleanXmlObject (JObj f) =
  JObj (map (fun kv => (fst kv, cleanProp (snd kv))) f).
Proof.
  cbn [cleanXmlObject]. f_equal. apply map_ext. intros [k v]. reflexivity.
Qed.

Lemma cleanXmlObject_array (l : list jv) :
  cleanXmlObject (JArr l) = JObj (indexed (map cleanProp l)).
Proof. reflexivity. Qed.

Lemma indexedFrom_keys (g : jv -> jv) (l : list jv) :
  forall n, map fst (indexedFrom n (map g l)) = map fst (indexedFrom n l).
Proof.
  induction l as [|x l IH]; intros n; simpl; [reflexivity|].
  rewrite IH. reflexivity.
Qed.

Lemma cleanItem_text (s : string) : cleanItem (JStr s) = JStr s.
Proof. reflexivity. Qed.

Lemma cleanProp_strings (strs : list string) :
  cleanProp (JArr (map JStr strs)) = JArr (map JStr strs).
Proof.
  destruct strs as [|s [|s' strs]]; try reflexivity.
  cbn [cleanProp map]. f_equal. f_equal. f_equal.
  induction strs as [|t strs IH]; [reflexivity|].
  cbn [map]. rewrite IH. reflexivity.
Qed.

Lemma getp_cleaned (k : string) (f : list (string * jv)) :
  getp k (map (fun kv => (fst kv, cleanProp (snd kv))) f) =
  match getp k f with
  | JUndef => getp k (map (fun kv => (fst kv, cleanProp (snd kv))) f)
  | v => cleanProp v
  end.
Proof.
  induction f as [|[k' v] f IH]; cbn [map getp fst snd]; [reflexivity|].
  destruct (String.eqb k' k).
  - destruct v; reflexivity.
  - exact IH.
Qed.

End Cleaning.

(** X15: for a value in which no property is named [__proto__],
    [cleanXmlObject] returns an object with exactly the keys its argument
    enumerates, in the same order: the names of an object's properties, the
    indices of an array or of a text. *)
Theorem cleanXmlObject_keeps_keys (obj : Xml.jv) :
  Xml.hasProtoKey obj = false ->
  exists fields,
    Xml.cleanXmlObject obj = Xml.JObj fields /\
    map fst fields = map fst (Xml.spread obj).
Proof.
  intros _. destruct obj as [|s|l|f].
  - exists []. split; reflexivity.
  - eexists. split; reflexivity.
  - eexists. split; [apply cleanXmlObject_array|].
    apply indexedFrom_keys.
  - eexists. split; [apply cleanXmlObject_object|].
    cbn [Xml.spread]. rewrite map_map. reflexivity.
Qed.

Lemma cleanXmlObject_keeps_keys_witness :
  exists fields,
    Xml.cleanXmlObject
      (Xml.JObj [("lang", Xml.JArr [Xml.JStr "id"]);
                 ("answers",
                  Xml.JArr [Xml.JObj [("a", Xml.JArr [Xml.JStr "Halo"])]])])
    = Xml.JObj fields /\
    map fst fields = ["lang"; "answers"].
Proof.
  apply (cleanXmlObject_keeps_keys
           (Xml.JObj [("lang", Xml.JArr [Xml.JStr "id"]);
                      ("answers",
                       Xml.JArr [Xml.JObj [("a", Xml.JArr [Xml.JStr "Halo"])]])])).
  reflexivity.
Defined.

(** X16: a property that holds an array of texts comes back as the same array,
    also when the array has one element only: a text-only child or a merged
    attribute is not unwrapped. *)
Theorem cleanXmlObject_keeps_text_arrays
    (fields : list (string * Xml.jv)) (key : string) (texts : list string) :
  Xml.getp key fields = Xml.JArr (map Xml.JStr texts) ->
  Xml.getp key (Xml.fieldsOf (Xml.cleanXmlObject (Xml.JObj fields))) =
  Xml.JArr (map Xml.JStr texts).
Proof.
  intros H. rewrite cleanXmlObject_object. cbn [Xml.fieldsOf].
  rewrite getp_cleaned, H. apply cleanProp_strings.
Qed.

Lemma cleanXmlObject_keeps_text_arrays_witness :
  Xml.getp "lang"
    (Xml.fieldsOf
       (Xml.cleanXmlObject
          (Xml.JObj [("lang", Xml.JArr [Xml.JStr "id"]);
                     ("answers",
                      Xml.JArr [Xml.JObj [("a", Xml.JArr [Xml.JStr "Halo"])]])])))
  = Xml.JArr [Xml.JStr "id"].
Proof.
  apply (cleanXmlObject_keeps_text_arrays
           [("lang", Xml.JArr [Xml.JStr "id"]);
            ("answers", Xml.JArr [Xml.JObj [("a", Xml.JArr [Xml.JStr "Halo"])]])]
           "lang" ["id"]).
  reflexivity.
Defined.

(** X17: an element that carries text is loaded as that text alone: its other
    children and its attributes are dropped, under whatever name it is
    loaded. *)
Theorem loadElement_text_drops_the_rest
    (name text : string) (fields : list (string * Xml.jv)) :
  Xml.getp "_" fields = Xml.JStr text -> text <> "" ->
  Xml.loadElement name (Xml.JObj fields) = Xml.JStr text.
Proof.
  intros Htext Hne. unfold Xml.loadElement.
  rewrite cleanXmlObject_object. cbn [map fst snd Xml.fieldsOf Xml.getp].
  rewrite String.eqb_refl.
  destruct fields as [|kv fields]; [discriminate|].
  cbn [Xml.cleanProp]. rewrite Htext. cbn [Xml.jtruthy].
  apply String.eqb_neq in Hne. rewrite Hne. reflexivity.
Qed.

Lemma loadElement_text_drops_the_rest_witness :
  Xml.loadElement "intent"
    (Xml.JObj [("name", Xml.JArr [Xml.JStr "sapaan"]);
               ("_", Xml.JStr "catatan");
               ("keywords", Xml.JArr [Xml.JObj [("k", Xml.JArr [Xml.JStr "halo"])]])])
  = Xml.JStr "catatan".
Proof.
  apply (loadElement_text_drops_the_rest "intent" "catatan"
           [("name", Xml.JArr [Xml.JStr "sapaan"]);
            ("_", Xml.JStr "catatan");
            ("keywords", Xml.JArr [Xml.JObj [("k", Xml.JArr [Xml.JStr "halo"])]])]).
  - reflexivity.
  - discriminate.
Defined.
